(** * The KPA scaler (pkg/reconciler/autoscaling/kpa/scaler.go)

    A shallow embedding of the scale-to-zero decision of the Knative pod
    autoscaler and of the top-level [scale] entry point, together with the
    properties the specification states about them.

    Conventions.
    - [int32] and [time.Duration] (an int64 count of nanoseconds) are
      integers of [Z]; Duration arithmetic wraps around as Go's does.
    - Everything the scaler asks of the outside (the clock, the network
      probe, the probe manager, the work queue, the informer cache, the
      dynamic client) is a [Call]; a program is a finite tree of calls
      ([Prog]), and [run] executes it against an oracle that answers each
      call, collecting the calls made. The function-valued fields of the
      [scaler] struct hold programs.
    - Logging is not modelled: it has no influence on results or calls. *)

From Stdlib Require Import ZArith List String Bool Lia DecimalString.
Import ListNotations.

Local Open Scope string_scope.
Local Open Scope list_scope.
Local Open Scope Z_scope.

(** ** Machine integers *)

Definition int32 := Z.

Definition int32_min : Z := - 2 ^ 31.
Definition int32_max : Z := 2 ^ 31 - 1.

Definition is_int32 (x : Z) : Prop := int32_min <= x <= int32_max.

(** ** time.Duration and time.Time *)

Module Duration.

(** A Duration is an int64 number of nanoseconds. *)
Definition t := Z.

Definition min_int64 : Z := - 2 ^ 63.
Definition max_int64 : Z := 2 ^ 63 - 1.

Definition in_range (d : Z) : Prop := min_int64 <= d <= max_int64.

(** Two's complement wrap-around of int64 arithmetic. *)
Definition wrap (z : Z) : t := (z + 2 ^ 63) mod 2 ^ 64 - 2 ^ 63.

Definition add (a b : t) : t := wrap (a + b).
Definition sub (a b : t) : t := wrap (a - b).
Definition mul (a b : t) : t := wrap (a * b).

Definition Nanosecond : t := 1.
Definition Microsecond : t := mul 1000 Nanosecond.
Definition Millisecond : t := mul 1000 Microsecond.
Definition Second : t := mul 1000 Millisecond.

End Duration.

Definition Time := Z.

(** ** Constants of the package *)

Definition scaleUnknown : int32 := -1.
Definition probePeriod : Duration.t := Duration.mul 1 Duration.Second.
Definition probeTimeout : Duration.t := Duration.mul 45 Duration.Second.

(** The time after which the PA will be re-enqueued. *)
Definition reenqeuePeriod : Duration.t := Duration.mul 1 Duration.Second.

Definition activationTimeoutBuffer : Duration.t :=
  Duration.mul 10 Duration.Second.

(** ** applyBounds

<<
// pre: 0 <= min <= max && 0 <= x
func applyBounds(min, max, x int32) int32
>> *)
Definition applyBounds (min max x : int32) : int32 :=
  if x <? min then min
  else if negb (max =? 0) && (x >? max) then max
  else x.

(** ** Data model *)

(** Go's [error]: errors of the collaborators are opaque; the two errors the
    scaler builds itself wrap their cause ([%w]). *)
Inductive error : Type :=
| ExternalError (msg : string)
| FailedToGetScaleTarget (cause : error)
| FailedToApplyScale (desiredScale : int32) (name : string) (cause : error).

(** corev1.ConditionStatus *)
Inductive ConditionStatus : Type :=
| ConditionTrue
| ConditionFalse
| ConditionUnknown.

Record Condition : Type := {
  Status : ConditionStatus;
  LastTransitionTime : Time
}.

Record ObjectReference : Type := {
  APIVersion : string;
  Kind : string;
  RefName : string
}.

Record PodAutoscalerSpec : Type := {
  ScaleTargetRef : ObjectReference;
  ProtocolType : string;
  (** The scale bounds; a [MaxScale] of 0 means unbounded. *)
  MinScale : int32;
  MaxScale : int32;
  (** The stable window of this PA, when it overrides the global one. *)
  Window : option Duration.t
}.

Record PodAutoscalerStatus : Type := {
  ServiceName : string;
  (** The [Active] condition of the PA. *)
  Active : Condition
}.

Record PodAutoscaler : Type := {
  Namespace : string;
  Name : string;
  Spec : PodAutoscalerSpec;
  PAStatus : PodAutoscalerStatus
}.

(** nv1a1.ServerlessServiceOperationMode *)
Inductive ServerlessServiceOperationMode : Type :=
| SKSOperationModeServe
| SKSOperationModeProxy.

Record ServerlessServiceSpec : Type := {
  Mode : ServerlessServiceOperationMode
}.

Record ServerlessServiceStatus : Type := {
  (** The [ActivatorEndpointsPopulated] condition of the SKS. *)
  ActivatorEndpointsPopulated : Condition
}.

Record ServerlessService : Type := {
  SKSSpec : ServerlessServiceSpec;
  SKSStatus : ServerlessServiceStatus
}.

(** The duck type of the scale target: [Spec.Replicas] is a [*int32]. *)
Record PodScalable : Type := {
  PSName : string;
  Replicas : option int32
}.

(** The configuration carried by the context. *)
Record AutoscalerConfig : Type := {
  EnableScaleToZero : bool;
  ConfigStableWindow : Duration.t;
  ScaleToZeroGracePeriod : Duration.t
}.

Record DeploymentConfig : Type := {
  ProgressDeadline : Duration.t
}.

Record Config : Type := {
  Autoscaler : AutoscalerConfig;
  Deployment : DeploymentConfig
}.

Record Context : Type := {
  FromContext : Config
}.

(** Opaque handles held by the scaler. *)
Inductive RoundTripper : Type := NewProberTransport.
Inductive InformerFactory : Type := informerFactory (id : nat).
Inductive DynamicClient : Type := dynamicClient_Get.

Record GroupVersionResource : Type := {
  Group : string;
  Version : string;
  Resource : string
}.

(** Options of a probe (knative.dev/pkg/network/prober). *)
Inductive ProbeOption : Type :=
| WithHeader (key value : string)
| ExpectsBody (body : string)
| ExpectsStatusCodes (codes : list Z).

Definition StatusOK : Z := 200.

(** A JSON patch as [duck.CreatePatch] returns it, and its marshalled bytes;
    their contents are those collaborators' business. *)
Inductive JSONPatch : Type := jsonPatch (before after : PodScalable).
Inductive PatchBytes : Type := marshalled (p : JSONPatch).

(** ** Operations of imported packages

    The methods of the PA, the configuration helpers and the constants below
    live in packages whose code is not part of this development. The scaler
    is verified for every implementation of them. *)
Class Imports : Type := {
  (** [pa.Status.CanFailActivation(now, idlePeriod)] *)
  CanFailActivation : PodAutoscalerStatus -> Time -> Duration.t -> bool;
  (** [pa.Status.ActiveFor(now)] *)
  ActiveFor : PodAutoscalerStatus -> Time -> Duration.t;
  (** [pa.Status.CanScaleToZero(now, gracePeriod)] *)
  CanScaleToZero : PodAutoscalerStatus -> Time -> Duration.t -> bool;
  (** [pa.ScaleBounds()] *)
  ScaleBounds : PodAutoscaler -> int32 * int32;
  (** [aresources.StableWindow(pa, cfgAS)] *)
  StableWindow : PodAutoscaler -> AutoscalerConfig -> Duration.t;
  (** [pkgnet.GetServiceHostname(name, namespace)] *)
  GetServiceHostname : string -> string -> string;
  (** [networking.ServicePort(protocolType)] *)
  ServicePort : string -> Z;
  (** [network.UserAgentKey], [network.AutoscalingUserAgent],
      [network.ProbeHeaderName], [activator.Name] *)
  UserAgentKey : string;
  AutoscalingUserAgent : string;
  ProbeHeaderName : string;
  activator_Name : string;
  (** [resources.ScaleResourceArguments(ref)] *)
  ScaleResourceArguments :
    ObjectReference -> (GroupVersionResource * string) + error;
  (** [duck.CreatePatch(before, after)] and [patch.MarshalJSON()] *)
  CreatePatch : PodScalable -> PodScalable -> JSONPatch + error;
  MarshalJSON : JSONPatch -> PatchBytes + error
}.

(** Modelled from the spec: [pa.Status.IsActivating()] and
    [pa.Status.IsReady()] are not part of this development; the data model
    gives the PA a tri-state [status.active] (True: Active, False: Inactive,
    Unknown: Activating), and the switch of [handleScaleToZero] annotates its
    cases with [Active=Unknown], [Active=True] and [Active=False]. *)
Definition IsActivating (s : PodAutoscalerStatus) : bool :=
  match Status (Active s) with ConditionUnknown => true | _ => false end.

Definition IsReady (s : PodAutoscalerStatus) : bool :=
  match Status (Active s) with ConditionTrue => true | _ => false end.

(** ** Calls to the outside and programs *)

(** What the scaler asks of its environment: [SyncProbe] is the question a
    probe function assigned to the [activatorProbe] field in place of the
    default one asks; [Offer] is the probe manager's method; [Enqueue] is the
    work queue behind the re-enqueue callback; [time_Now] is [time.Now()];
    [prober_Do] is the network request of [prober.Do]; [ProxyFor] is
    [sks.Status.ProxyFor()], which reads the clock itself;
    [GetScaleResource] is the lookup in the informer cache; [Patch] is the
    PATCH request of the dynamic client. *)
Inductive Call : Type :=
| SyncProbe (pa : PodAutoscaler) (transport : RoundTripper)
| Offer (target : string) (arg : PodAutoscaler)
        (period timeout : Duration.t) (opts : list ProbeOption)
| Enqueue (arg : PodAutoscaler) (delay : Duration.t)
| time_Now
| prober_Do (transport : RoundTripper) (target : string)
            (opts : list ProbeOption)
| ProxyFor (s : ServerlessServiceStatus)
| GetScaleResource (namespace : string) (ref : ObjectReference)
                   (psf : InformerFactory)
| Patch (dc : DynamicClient) (gvr : GroupVersionResource)
        (namespace name : string) (data : PatchBytes).

(** The type of the answer to each call. *)
Definition Resp (c : Call) : Type :=
  match c with
  | SyncProbe _ _ => (bool * option error)%type
  | Offer _ _ _ _ _ => bool
  | Enqueue _ _ => unit
  | time_Now => Time
  | prober_Do _ _ _ => (bool * option error)%type
  | ProxyFor _ => Duration.t
  | GetScaleResource _ _ _ => (PodScalable + error)%type
  | Patch _ _ _ _ _ => option error
  end.

Inductive Prog (A : Type) : Type :=
| Ret (a : A)
| Vis (c : Call) (k : Resp c -> Prog A).

Arguments Ret {A} a.
Arguments Vis {A} c k.

Fixpoint bind {A B : Type} (p : Prog A) (f : A -> Prog B) : Prog B :=
  match p with
  | Ret a => f a
  | Vis c k => Vis c (fun x => bind (k x) f)
  end.

Definition call (c : Call) : Prog (Resp c) := Vis c Ret.

Declare Scope prog_scope.
Delimit Scope prog_scope with prog.
Notation "x <- m ;; k" := (bind m (fun x => k))
  (at level 61, m at next level, right associativity) : prog_scope.
Notation "m ;; k" := (bind m (fun _ => k))
  (at level 61, right associativity) : prog_scope.
Local Open Scope prog_scope.

(** An oracle answers the [n]-th call of a run. *)
Definition Oracle : Type := nat -> forall c : Call, Resp c.

(** [run o n p] executes [p], whose first call is the [n]-th of the run, and
    returns the calls made, in order, with the result. *)
Fixpoint run {A : Type} (o : Oracle) (n : nat) (p : Prog A) : list Call * A :=
  match p with
  | Ret a => ([], a)
  | Vis c k => let (tr, a) := run o (S n) (k (o n c)) in (c :: tr, a)
  end.

Definition calls {A : Type} (o : Oracle) (n : nat) (p : Prog A) : list Call :=
  fst (run o n p).

Definition result {A : Type} (o : Oracle) (n : nat) (p : Prog A) : A :=
  snd (run o n p).

(** ** The scaler *)

(** for mocking in tests *)
Record asyncProber : Type := {
  asyncProber_Offer :
    string -> PodAutoscaler -> Duration.t -> Duration.t ->
    list ProbeOption -> Prog bool
}.

(** The probe manager of knative.dev/pkg/network/prober: it keeps the
    completion callback it was created with. *)
Record Manager : Type := {
  cb : PodAutoscaler -> bool -> option error -> Prog unit;
  mtransport : RoundTripper
}.

Definition prober_New
    (cb : PodAutoscaler -> bool -> option error -> Prog unit)
    (transport : RoundTripper) : Manager :=
  {| cb := cb; mtransport := transport |}.

Definition Manager_Offer (m : Manager) (target : string) (arg : PodAutoscaler)
    (period timeout : Duration.t) (opts : list ProbeOption) : Prog bool :=
  call (Offer target arg period timeout opts).

Definition Manager_asyncProber (m : Manager) : asyncProber :=
  {| asyncProber_Offer := Manager_Offer m |}.

Module scaler.

(** scaler scales the target of a kpa-class PA up or down including scaling
    to zero. *)
Record t : Type := {
  psInformerFactory : InformerFactory;
  dynamicClient : DynamicClient;
  transport : RoundTripper;
  (** For sync probes. *)
  activatorProbe :
    PodAutoscaler -> RoundTripper -> Prog (bool * option error);
  (** For async probes. *)
  probeManager : asyncProber;
  enqueueCB : PodAutoscaler -> Duration.t -> Prog unit
}.

End scaler.

Section Scaler.

Context {imports : Imports}.

Definition probeOptions : list ProbeOption :=
  [ WithHeader UserAgentKey AutoscalingUserAgent;
    WithHeader ProbeHeaderName activator_Name;
    ExpectsBody activator_Name;
    ExpectsStatusCodes [StatusOK] ].

(** Resolves the pa to the probing endpoint Eg. http://hostname:port/healthz *)
Definition paToProbeTarget (pa : PodAutoscaler) : string :=
  let svc := GetServiceHostname (ServiceName (PAStatus pa)) (Namespace pa) in
  let port := ServicePort (ProtocolType (Spec pa)) in
  ("http://" ++ svc ++ ":" ++ NilZero.string_of_int (Z.to_int port)
     ++ "/healthz")%string.

(** activatorProbe returns true if via probe it determines that the
    PA is backed by the Activator. *)
Definition activatorProbe (pa : PodAutoscaler) (transport : RoundTripper)
  : Prog (bool * option error) :=
  (* No service name -- no probe. *)
  if String.eqb (ServiceName (PAStatus pa)) "" then Ret (false, None)
  else call (prober_Do transport (paToProbeTarget pa) probeOptions).

(** The completion callback [newScaler] hands to [prober.New]. *)
Definition newScaler_probeDone
    (enqueueCB : PodAutoscaler -> Duration.t -> Prog unit)
    (arg : PodAutoscaler) (success : bool) (err : option error) : Prog unit :=
  (* Re-enqueue the PA in any case. If the probe timed out to retry again,
     if succeeded to scale to 0. *)
  enqueueCB arg reenqeuePeriod.

(** newScaler creates a scaler. *)
Definition newScaler (psInformerFactory : InformerFactory)
    (enqueueCB : PodAutoscaler -> Duration.t -> Prog unit) : scaler.t :=
  let transport := NewProberTransport in
  {| scaler.psInformerFactory := psInformerFactory;
     scaler.dynamicClient := dynamicClient_Get;
     scaler.transport := transport;
     (* Production setup uses the default probe implementation. *)
     scaler.activatorProbe := activatorProbe;
     scaler.probeManager :=
       Manager_asyncProber
         (prober_New (newScaler_probeDone enqueueCB) transport);
     scaler.enqueueCB := enqueueCB |}.

Definition mode_eqb (a b : ServerlessServiceOperationMode) : bool :=
  match a, b with
  | SKSOperationModeServe, SKSOperationModeServe => true
  | SKSOperationModeProxy, SKSOperationModeProxy => true
  | _, _ => false
  end.

Definition handleScaleToZero (ks : scaler.t) (ctx : Context)
    (pa : PodAutoscaler) (sks : ServerlessService) (desiredScale : int32)
  : Prog (int32 * bool) :=
  if negb (desiredScale =? 0) then Ret (desiredScale, true)
  else
    (* We should only scale to zero when three of the following conditions
       are true:
         a) enable-scale-to-zero from configmap is true
         b) The PA has been active for at least the stable window, after
            which it gets marked inactive, and
         c) the PA has been backed by the Activator for at least the grace
            period of time.
       Alternatively, if (a) and the revision did not succeed to activate in
       `activationTimeout` time -- also scale it to 0. *)
    let cfgs := FromContext ctx in
    let cfgAS := Autoscaler cfgs in
    if negb (EnableScaleToZero cfgAS) then Ret (1, true)
    else
      let cfgD := Deployment cfgs in
      let activationTimeout :=
        Duration.add (ProgressDeadline cfgD) activationTimeoutBuffer in
      now <- call time_Now ;;
      if IsActivating (PAStatus pa) then (* Active=Unknown *)
        (* If we are stuck activating for longer than our progress deadline,
           presume we cannot succeed and scale to 0. *)
        if CanFailActivation (PAStatus pa) now activationTimeout
        then Ret (desiredScale, true)
        else
          scaler.enqueueCB ks pa activationTimeout ;;
          Ret (scaleUnknown, false)
      else if IsReady (PAStatus pa) then (* Active=True *)
        (* Don't scale-to-zero if the PA is active
           but return `(0, false)` to mark PA inactive, instead. *)
        let sw := StableWindow pa cfgAS in
        let af := ActiveFor (PAStatus pa) now in
        if af >=? sw then
          (* If SKS currently is in Serving mode, we do not need to enqueue
             PA here, since SKS will reconcile to change the mode and when
             it's done, PA will be reconciled again.
             Otherwise, SKS might not meaningfully change and thus
             PA will not be re-enqueued in time.
             So enqueue PA for reconcile again in a few seconds. *)
          (if mode_eqb (Mode (SKSSpec sks)) SKSOperationModeProxy
           then
             (* Long enough to ensure current iteration is finished. *)
             scaler.enqueueCB ks pa (Duration.mul 3 Duration.Second)
           else Ret tt) ;;
          Ret (desiredScale, false)
        else
          (* Otherwise, scale down to at most 1 for the remainder of the idle
             period and then reconcile PA again. *)
          scaler.enqueueCB ks pa (Duration.sub sw af) ;;
          Ret (1, true)
      else (* Active=False *)
        (* Probe synchronously, to see if Activator is already in the
           path. *)
        probed <- scaler.activatorProbe ks pa (scaler.transport ks) ;;
        let (r, err) := probed : bool * option error in
        if r then
          (* This enforces that the revision has been backed by the
             Activator for at least ScaleToZeroGracePeriod time. *)
          (* Most conservative check, if it passes we're good. *)
          if CanScaleToZero (PAStatus pa) now (ScaleToZeroGracePeriod cfgAS)
          then Ret (desiredScale, true)
          else
            (* Otherwise check how long SKS was in proxy mode.
               Compute the difference between time we've been proxying with
               the timeout. If it's positive, that's the time we need to
               sleep, if negative -- we can scale to zero. *)
            pf <- call (ProxyFor (SKSStatus sks)) ;;
            let to := Duration.sub (ScaleToZeroGracePeriod cfgAS) pf in
            if to <=? 0 then Ret (desiredScale, true)
            else
              (* Re-enqueue the PA for reconciliation with timeout of `to`
                 to make sure we wait long enough. *)
              scaler.enqueueCB ks pa to ;;
              Ret (desiredScale, false)
        else
          (* Otherwise (any prober failure) start the async probe. *)
          asyncProber_Offer (scaler.probeManager ks) (paToProbeTarget pa) pa
            probePeriod probeTimeout probeOptions ;;
          Ret (desiredScale, false).

Definition applyScale (ks : scaler.t) (ctx : Context) (pa : PodAutoscaler)
    (desiredScale : int32) (ps : PodScalable) : Prog (option error) :=
  match ScaleResourceArguments (ScaleTargetRef (Spec pa)) with
  | inr err => Ret (Some err)
  | inl (gvr, name) =>
    let psNew := {| PSName := PSName ps; Replicas := Some desiredScale |} in
    match CreatePatch ps psNew with
    | inr err => Ret (Some err)
    | inl patch =>
      match MarshalJSON patch with
      | inr err => Ret (Some err)
      | inl patchBytes =>
        res <- call (Patch (scaler.dynamicClient ks) gvr (Namespace pa)
                       (PSName ps) patchBytes) ;;
        match res : option error with
        | Some err => Ret (Some (FailedToApplyScale desiredScale name err))
        | None => Ret None
        end
      end
    end
  end.

(** scale attempts to scale the given PA's target reference to the desired
    scale. *)
Definition scale (ks : scaler.t) (ctx : Context) (pa : PodAutoscaler)
    (sks : ServerlessService) (desiredScale : int32)
  : Prog (int32 * option error) :=
  if (desiredScale <? 0) && negb (IsActivating (PAStatus pa))
  then Ret (desiredScale, None)
  else
    let (min, max) := ScaleBounds pa in
    let desiredScale :=
      let newScale := applyBounds min max desiredScale in
      if negb (newScale =? desiredScale) then newScale else desiredScale in
    decided <- handleScaleToZero ks ctx pa sks desiredScale ;;
    let (desiredScale, shouldApplyScale) := decided : int32 * bool in
    if negb shouldApplyScale then Ret (desiredScale, None)
    else
      got <- call (GetScaleResource (Namespace pa) (ScaleTargetRef (Spec pa))
                     (scaler.psInformerFactory ks)) ;;
      match got : PodScalable + error with
      | inr err => Ret (desiredScale, Some (FailedToGetScaleTarget err))
      | inl ps =>
        let currentScale :=
          match Replicas ps with Some r => r | None => 1 end in
        if desiredScale =? currentScale then Ret (desiredScale, None)
        else
          err <- applyScale ks ctx pa desiredScale ps ;;
          Ret (desiredScale, err)
      end.

End Scaler.

(** The re-enqueue callback of the reconciler: scheduling the key on the
    work queue is all it does. *)
Definition EnqueueAfter (arg : PodAutoscaler) (delay : Duration.t)
  : Prog unit :=
  call (Enqueue arg delay).

(** A scaler as [newScaler] builds it for the reconciler's callback, with the
    [activatorProbe] field set to [probe]: [newScaler] puts the default
    probe implementation there, and any other function can be assigned to
    inject probe outcomes. *)
Definition scalerWith {imports : Imports} (psf : InformerFactory)
    (probe : PodAutoscaler -> RoundTripper -> Prog (bool * option error))
  : scaler.t :=
  let ks := newScaler psf EnqueueAfter in
  {| scaler.psInformerFactory := scaler.psInformerFactory ks;
     scaler.dynamicClient := scaler.dynamicClient ks;
     scaler.transport := scaler.transport ks;
     scaler.activatorProbe := probe;
     scaler.probeManager := scaler.probeManager ks;
     scaler.enqueueCB := scaler.enqueueCB ks |}.

(** A probe whose outcome the environment chooses. *)
Definition injectedProbe (pa : PodAutoscaler) (transport : RoundTripper)
  : Prog (bool * option error) :=
  call (SyncProbe pa transport).

(** ** What a trace says *)

(** The PATCH requests among the calls of a run. *)
Definition is_Patch (c : Call) : bool :=
  match c with
  | Patch _ _ _ _ _ => true
  | _ => false
  end.

Definition patches (tr : list Call) : list Call := filter is_Patch tr.

(** [ps.Spec.Replicas], 1 when absent. *)
Definition currentScale (ps : PodScalable) : int32 :=
  match Replicas ps with
  | Some r => r
  | None => 1
  end.

(** The run re-enqueues [pa], or hands it to the probe manager for the PA's
    probe target. *)
Definition reenqueues {imports : Imports} (pa : PodAutoscaler)
    (tr : list Call) : Prop :=
  (exists delay, In (Enqueue pa delay) tr) \/
  (exists period timeout opts,
      In (Offer (paToProbeTarget pa) pa period timeout opts) tr).

(** Re-enqueue completeness of one invocation of [handleScaleToZero] with
    [desiredScale = 0] and scale to zero enabled: when it returns
    [shouldApply = false], it has re-enqueued the PA or offered it to the
    probe manager. *)
Definition reenqueue_complete {imports : Imports} (ks : scaler.t)
    (ctx : Context) (pa : PodAutoscaler) (sks : ServerlessService)
    (o : Oracle) (n : nat) : Prop :=
  EnableScaleToZero (Autoscaler (FromContext ctx)) = true ->
  snd (result o n (handleScaleToZero ks ctx pa sks 0)) = false ->
  reenqueues pa (calls o n (handleScaleToZero ks ctx pa sks 0)).

(** A synchronous probe that never patches the scale target. *)
Definition patch_free
    (probe : PodAutoscaler -> RoundTripper -> Prog (bool * option error))
  : Prop :=
  forall o n pa transport, patches (calls o n (probe pa transport)) = [].

(** ** A concrete environment

    Used to run the scaler on the scenarios of the specification. *)

Definition seconds (n : Z) : Duration.t := Duration.mul n Duration.Second.

(** Modelled from the spec: the methods of the PA status, [ScaleBounds],
    [StableWindow], the host name and port helpers, the probe header
    constants and the patch helpers are not part of this development.
    [CanFailActivation(now, timeout)] is true iff the PA has been Activating
    for at least [timeout]; [CanScaleToZero(now, grace)] is true iff it has
    been Inactive for at least [grace]; [ActiveFor(now)] is the duration
    since the PA became Active (left undefined by the spec otherwise: -1
    here); the bounds are [spec.minScale] and [spec.maxScale]; the stable
    window is the per-PA override or the global default; the probe target is
    [http://{service}.{namespace}:{port}/healthz], the port coming from a
    mapping of the networking layer (80, and 81 for h2c, here); the name and
    the group/version/resource of the target come from [scaleTargetRef]. *)
Definition specImports : Imports := {|
  CanFailActivation s now timeout :=
    match Status (Active s) with
    | ConditionUnknown => now - LastTransitionTime (Active s) >=? timeout
    | _ => false
    end;
  ActiveFor s now :=
    match Status (Active s) with
    | ConditionTrue => Duration.wrap (now - LastTransitionTime (Active s))
    | _ => -1
    end;
  CanScaleToZero s now grace :=
    match Status (Active s) with
    | ConditionFalse => now - LastTransitionTime (Active s) >=? grace
    | _ => false
    end;
  ScaleBounds pa := (MinScale (Spec pa), MaxScale (Spec pa));
  StableWindow pa cfg :=
    match Window (Spec pa) with
    | Some w => w
    | None => ConfigStableWindow cfg
    end;
  GetServiceHostname name ns := (name ++ "." ++ ns)%string;
  ServicePort proto := if String.eqb proto "h2c" then 81 else 80;
  UserAgentKey := "User-Agent";
  AutoscalingUserAgent := "Knative-Autoscaling-Probe";
  ProbeHeaderName := "K-Network-Probe";
  activator_Name := "activator";
  ScaleResourceArguments ref :=
    inl ({| Group := APIVersion ref; Version := ""; Resource := Kind ref |},
         RefName ref);
  CreatePatch before after := inl (jsonPatch before after);
  MarshalJSON p := inl (marshalled p)
|}.

(** The configuration of the scenarios: grace = 30s, stableWindow = 60s,
    progressDeadline = 600s. *)
Definition scenarioCtx (enable : bool) : Context :=
  {| FromContext :=
       {| Autoscaler :=
            {| EnableScaleToZero := enable;
               ConfigStableWindow := seconds 60;
               ScaleToZeroGracePeriod := seconds 30 |};
          Deployment := {| ProgressDeadline := seconds 600 |} |} |}.

Definition scenarioTarget : ObjectReference :=
  {| APIVersion := "apps/v1"; Kind := "Deployment";
     RefName := "rev-deployment" |}.

(** A PA in namespace [ns] whose [Active] condition took the value [st] at
    time [since]. *)
Definition scenarioPA (st : ConditionStatus) (since : Time)
    (service : string) (min max : int32) : PodAutoscaler :=
  {| Namespace := "ns";
     Name := "rev";
     Spec := {| ScaleTargetRef := scenarioTarget;
                ProtocolType := "http1";
                MinScale := min;
                MaxScale := max;
                Window := None |};
     PAStatus := {| ServiceName := service;
                    Active := {| Status := st;
                                 LastTransitionTime := since |} |} |}.

Definition scenarioSKS (mode : ServerlessServiceOperationMode)
  : ServerlessService :=
  {| SKSSpec := {| Mode := mode |};
     SKSStatus :=
       {| ActivatorEndpointsPopulated :=
            {| Status := ConditionTrue; LastTransitionTime := 0 |} |} |}.

(** An oracle: the clock reads [now], probes (synchronous ones and the
    network's) answer [probe], the SKS has proxied for [pf], the probe
    manager accepts offers, the target has [replicas] replicas and patches
    succeed. *)
Definition scenarioOracle (now : Time) (probe : bool * option error)
    (pf : Duration.t) (replicas : option int32) : Oracle :=
  fun _ c =>
    match c return Resp c with
    | SyncProbe _ _ => probe
    | Offer _ _ _ _ _ => true
    | Enqueue _ _ => tt
    | time_Now => now
    | prober_Do _ _ _ => probe
    | ProxyFor _ => pf
    | GetScaleResource _ ref _ =>
        inl {| PSName := RefName ref; Replicas := replicas |}
    | Patch _ _ _ _ _ => None
    end.

(** The scaler of the scenarios: the one [newScaler] builds. *)
Definition scenarioScaler : scaler.t :=
  newScaler (imports := specImports) (informerFactory 0) EnqueueAfter.

(** The calls the scenarios meet. *)
Definition scenarioGet : Call :=
  GetScaleResource "ns" scenarioTarget (informerFactory 0).

Definition scenarioPatch (from to : int32) : Call :=
  Patch dynamicClient_Get
    {| Group := "apps/v1"; Version := ""; Resource := "Deployment" |}
    "ns" "rev-deployment"
    (marshalled
       (jsonPatch {| PSName := "rev-deployment"; Replicas := Some from |}
          {| PSName := "rev-deployment"; Replicas := Some to |})).

Definition scenarioProbeRequest : Call :=
  prober_Do NewProberTransport "http://svc.ns:80/healthz"
    [ WithHeader "User-Agent" "Knative-Autoscaling-Probe";
      WithHeader "K-Network-Probe" "activator";
      ExpectsBody "activator"; ExpectsStatusCodes [200] ].

Definition scenarioServe : ServerlessService :=
  scenarioSKS SKSOperationModeServe.

Definition scenarioProxy : ServerlessService :=
  scenarioSKS SKSOperationModeProxy.

(** An oracle like [scenarioOracle] for which the lookup of the scale target
    fails. *)
Definition lookupFailsOracle (now : Time) (probe : bool * option error)
    (pf : Duration.t) : Oracle :=
  fun m c =>
    match c return Resp c with
    | GetScaleResource _ _ _ => inr (ExternalError "not found")
    | c' => scenarioOracle now probe pf None m c'
    end.

(** * Properties *)

(** ** Running programs *)

Lemma run_bind {A B : Type} (o : Oracle) (p : Prog A) (f : A -> Prog B) :
  forall n,
    run o n (bind p f) =
    (fst (run o n p)
       ++ fst (run o (n + List.length (fst (run o n p)))
                 (f (snd (run o n p)))),
     snd (run o (n + List.length (fst (run o n p))) (f (snd (run o n p))))).
Proof.
  induction p as [a | c k IH]; intros n; simpl.
  - rewrite Nat.add_0_r. destruct (run o n (f a)); reflexivity.
  - rewrite IH. destruct (run o (S n) (k (o n c))) as [tr a]. simpl.
    replace (n + S (List.length tr))%nat with (S n + List.length tr)%nat by lia.
    reflexivity.
Qed.

Lemma calls_bind {A B : Type} (o : Oracle) (n : nat) (p : Prog A)
    (f : A -> Prog B) :
  calls o n (bind p f) =
  calls o n p ++ calls o (n + List.length (calls o n p)) (f (result o n p)).
Proof. unfold calls, result. rewrite run_bind. reflexivity. Qed.

Lemma result_bind {A B : Type} (o : Oracle) (n : nat) (p : Prog A)
    (f : A -> Prog B) :
  result o n (bind p f) =
  result o (n + List.length (calls o n p)) (f (result o n p)).
Proof. unfold calls, result. rewrite run_bind. reflexivity. Qed.

Lemma run_eta {A : Type} (o : Oracle) (n : nat) (p : Prog A) :
  run o n p = (calls o n p, result o n p).
Proof. unfold calls, result. destruct (run o n p); reflexivity. Qed.

Lemma patches_app (l1 l2 : list Call) :
  patches (l1 ++ l2) = patches l1 ++ patches l2.
Proof. apply filter_app. Qed.

(** ** Durations *)

Lemma wrap_in_range (z : Z) : Duration.in_range (Duration.wrap z).
Proof.
  unfold Duration.in_range, Duration.wrap, Duration.min_int64,
    Duration.max_int64.
  pose proof (Z.mod_pos_bound (z + 2 ^ 63) (2 ^ 64) ltac:(lia)). lia.
Qed.

Lemma wrap_id (z : Z) : Duration.in_range z -> Duration.wrap z = z.
Proof.
  unfold Duration.in_range, Duration.wrap, Duration.min_int64,
    Duration.max_int64.
  intros H. rewrite Z.mod_small by lia. lia.
Qed.

(** Without overflow, Duration arithmetic is that of the integers. *)
Lemma add_exact (a b : Duration.t) :
  Duration.in_range (a + b) -> Duration.add a b = a + b.
Proof. apply wrap_id. Qed.

Lemma sub_exact (a b : Duration.t) :
  Duration.in_range (a - b) -> Duration.sub a b = a - b.
Proof. apply wrap_id. Qed.

Lemma seconds_ns (n : Z) :
  Duration.in_range (n * 1000000000) -> seconds n = n * 1000000000.
Proof.
  intros H. unfold seconds, Duration.mul.
  replace Duration.Second with 1000000000 by (vm_compute; reflexivity).
  apply wrap_id, H.
Qed.

Lemma constants_ns :
  probePeriod = 1000000000 /\ probeTimeout = 45000000000 /\
  reenqeuePeriod = 1000000000 /\ activationTimeoutBuffer = 10000000000 /\
  Duration.mul 3 Duration.Second = 3000000000.
Proof. vm_compute. repeat split. Qed.

(** ** The scaler of newScaler *)

Lemma newScaler_scalerWith {imports : Imports} (psf : InformerFactory) :
  newScaler psf EnqueueAfter = scalerWith psf activatorProbe.
Proof. reflexivity. Qed.

(** ** The branches of handleScaleToZero *)

Lemma hstz_nonzero {imports : Imports} (ks : scaler.t) (ctx : Context)
    (pa : PodAutoscaler) (sks : ServerlessService) (o : Oracle) (n : nat)
    (desiredScale : int32) :
  desiredScale <> 0 ->
  run o n (handleScaleToZero ks ctx pa sks desiredScale) =
  ([], (desiredScale, true)).
Proof.
  intros H. unfold handleScaleToZero.
  apply Z.eqb_neq in H. rewrite H. reflexivity.
Qed.

Lemma hstz_disabled {imports : Imports} (ks : scaler.t) (ctx : Context)
    (pa : PodAutoscaler) (sks : ServerlessService) (o : Oracle) (n : nat) :
  EnableScaleToZero (Autoscaler (FromContext ctx)) = false ->
  run o n (handleScaleToZero ks ctx pa sks 0) = ([], (1, true)).
Proof.
  intros H. unfold handleScaleToZero. rewrite H. reflexivity.
Qed.

Section Branches.

Context {imports : Imports}.
Variable psf : InformerFactory.
Variable probe : PodAutoscaler -> RoundTripper -> Prog (bool * option error).
Variables (ctx : Context) (pa : PodAutoscaler) (sks : ServerlessService).
Variables (o : Oracle) (n : nat).

Lemma run_vis {A : Type} (c : Call) (k : Resp c -> Prog A) (m : nat) :
  run o m (Vis c k) =
  (c :: calls o (S m) (k (o m c)), result o (S m) (k (o m c))).
Proof.
  simpl. rewrite (run_eta o (S m) (k (o m c))). reflexivity.
Qed.

Lemma hstz_activating :
  EnableScaleToZero (Autoscaler (FromContext ctx)) = true ->
  Status (Active (PAStatus pa)) = ConditionUnknown ->
  run o n (handleScaleToZero (scalerWith psf probe) ctx pa sks 0) =
  let activationTimeout :=
    Duration.add (ProgressDeadline (Deployment (FromContext ctx)))
      activationTimeoutBuffer in
  if CanFailActivation (PAStatus pa) (o n time_Now) activationTimeout
  then ([time_Now], (0, true))
  else ([time_Now; Enqueue pa activationTimeout], (scaleUnknown, false)).
Proof.
  intros He Hs. unfold handleScaleToZero, IsActivating.
  rewrite He, Hs. cbn [negb Z.eqb call bind].
  rewrite run_vis. unfold calls, result.
  destruct (CanFailActivation _ _ _); reflexivity.
Qed.

Lemma hstz_active :
  EnableScaleToZero (Autoscaler (FromContext ctx)) = true ->
  Status (Active (PAStatus pa)) = ConditionTrue ->
  run o n (handleScaleToZero (scalerWith psf probe) ctx pa sks 0) =
  let sw := StableWindow pa (Autoscaler (FromContext ctx)) in
  let af := ActiveFor (PAStatus pa) (o n time_Now) in
  if af >=? sw then
    match Mode (SKSSpec sks) with
    | SKSOperationModeProxy =>
        ([time_Now; Enqueue pa (Duration.mul 3 Duration.Second)], (0, false))
    | SKSOperationModeServe => ([time_Now], (0, false))
    end
  else ([time_Now; Enqueue pa (Duration.sub sw af)], (1, true)).
Proof.
  intros He Hs. unfold handleScaleToZero, IsActivating, IsReady.
  rewrite He, Hs. cbn [negb Z.eqb call bind].
  rewrite run_vis. unfold calls, result. cbv zeta.
  destruct (_ >=? _).
  - destruct (Mode (SKSSpec sks)); reflexivity.
  - reflexivity.
Qed.

Lemma hstz_inactive :
  EnableScaleToZero (Autoscaler (FromContext ctx)) = true ->
  Status (Active (PAStatus pa)) = ConditionFalse ->
  run o n (handleScaleToZero (scalerWith psf probe) ctx pa sks 0) =
  let probing := run o (S n) (probe pa NewProberTransport) in
  let grace := ScaleToZeroGracePeriod (Autoscaler (FromContext ctx)) in
  if fst (snd probing) then
    if CanScaleToZero (PAStatus pa) (o n time_Now) grace
    then (time_Now :: fst probing, (0, true))
    else
      let pf :=
        o (S n + List.length (fst probing))%nat (ProxyFor (SKSStatus sks)) in
      let to := Duration.sub grace pf in
      if to <=? 0
      then (time_Now :: fst probing ++ [ProxyFor (SKSStatus sks)], (0, true))
      else (time_Now :: fst probing
              ++ [ProxyFor (SKSStatus sks); Enqueue pa to], (0, false))
  else
    (time_Now :: fst probing
       ++ [Offer (paToProbeTarget pa) pa probePeriod probeTimeout
             probeOptions],
     (0, false)).
Proof.
  intros He Hs. unfold handleScaleToZero, IsActivating, IsReady.
  rewrite He, Hs. cbn [negb Z.eqb call bind].
  rewrite run_vis. unfold calls, result. rewrite run_bind.
  change (scaler.activatorProbe (scalerWith psf probe)) with probe.
  change (scaler.transport (scalerWith psf probe)) with NewProberTransport.
  cbv zeta.
  destruct (run o (S n) (probe pa NewProberTransport)) as [tr [[|] err]];
    cbn [fst snd].
  - destruct (CanScaleToZero _ _ _).
    + cbn [run fst snd]. rewrite app_nil_r. reflexivity.
    + cbn [run fst snd bind call].
      destruct (_ <=? 0); reflexivity.
  - reflexivity.
Qed.

End Branches.

(** ** The scale-to-zero decision *)

Section Decision.

Context {imports : Imports}.
Variable psf : InformerFactory.
Variable probe : PodAutoscaler -> RoundTripper -> Prog (bool * option error).
Variables (ctx : Context) (pa : PodAutoscaler) (sks : ServerlessService).
Variables (o : Oracle) (n : nat).

(** C6 -- zero-gating. With [enableScaleToZero = false] no invocation of
    [handleScaleToZero], whatever the scaler and the desired scale, returns
    an effective scale of 0; for a desired scale of 0 it returns [(1, true)]
    and calls nothing. *)
Theorem zero_gating (ks : scaler.t) (desiredScale : int32) :
  EnableScaleToZero (Autoscaler (FromContext ctx)) = false ->
  fst (result o n (handleScaleToZero ks ctx pa sks desiredScale)) <> 0 /\
  (desiredScale = 0 ->
   run o n (handleScaleToZero ks ctx pa sks desiredScale) = ([], (1, true))).
Proof.
  intros He. split.
  - unfold result. destruct (Z.eq_dec desiredScale 0) as [-> | Hd].
    + rewrite hstz_disabled by assumption. simpl. lia.
    + rewrite hstz_nonzero by assumption. exact Hd.
  - intros ->. apply hstz_disabled, He.
Qed.

(** C4 -- the Activating branch. With a desired scale of 0, scale to zero
    enabled and the PA Activating ([Active=Unknown]), where
    [activationTimeout] is the progress deadline plus 10s (in Duration
    arithmetic): if [CanFailActivation(now, activationTimeout)] the function
    returns [(0, true)], having only read the clock; otherwise it calls
    [enqueueCB(pa, activationTimeout)] and returns [(-1, false)]. *)
Theorem activating_branch :
  EnableScaleToZero (Autoscaler (FromContext ctx)) = true ->
  Status (Active (PAStatus pa)) = ConditionUnknown ->
  let activationTimeout :=
    Duration.add (ProgressDeadline (Deployment (FromContext ctx)))
      10000000000 in
  let now : Time := o n time_Now in
  let outcome :=
    run o n (handleScaleToZero (scalerWith psf probe) ctx pa sks 0) in
  (CanFailActivation (PAStatus pa) now activationTimeout = true ->
   outcome = ([time_Now], (0, true))) /\
  (CanFailActivation (PAStatus pa) now activationTimeout = false ->
   outcome = ([time_Now; Enqueue pa activationTimeout], (-1, false))).
Proof.
  intros He Hs activationTimeout now outcome. subst outcome.
  rewrite hstz_activating by assumption. cbv zeta.
  replace activationTimeoutBuffer with 10000000000
    by (symmetry; apply constants_ns).
  fold activationTimeout. fold now.
  split; intros ->; reflexivity.
Qed.

(** C3 -- the Active branch. With a desired scale of 0, scale to zero
    enabled and the PA Active ([Active=True]): if
    [activeFor >= stableWindow] the function returns [(0, false)] and calls
    [enqueueCB(pa, 3s)] exactly when the SKS is in Proxy mode (in Serve mode
    it only reads the clock); if [activeFor < stableWindow] it calls
    [enqueueCB(pa, stableWindow - activeFor)] and returns [(1, true)]. *)
Theorem active_branch :
  EnableScaleToZero (Autoscaler (FromContext ctx)) = true ->
  Status (Active (PAStatus pa)) = ConditionTrue ->
  let stableWindow := StableWindow pa (Autoscaler (FromContext ctx)) in
  let activeFor := ActiveFor (PAStatus pa) (o n time_Now) in
  let outcome :=
    run o n (handleScaleToZero (scalerWith psf probe) ctx pa sks 0) in
  (activeFor >= stableWindow ->
   snd outcome = (0, false) /\
   (Mode (SKSSpec sks) = SKSOperationModeProxy ->
    fst outcome = [time_Now; Enqueue pa 3000000000]) /\
   (Mode (SKSSpec sks) <> SKSOperationModeProxy ->
    fst outcome = [time_Now])) /\
  (activeFor < stableWindow ->
   outcome =
   ([time_Now; Enqueue pa (Duration.sub stableWindow activeFor)],
    (1, true))).
Proof.
  intros He Hs stableWindow activeFor outcome. subst outcome.
  rewrite hstz_active by assumption. cbv zeta.
  replace (Duration.mul 3 Duration.Second) with 3000000000
    by (symmetry; apply constants_ns).
  fold stableWindow. fold activeFor.
  split; intros Hc.
  - apply Z.geb_ge in Hc. rewrite Hc.
    destruct (Mode (SKSSpec sks)); repeat split; intros; congruence.
  - assert (Hf : (activeFor >=? stableWindow) = false).
    { rewrite Z.geb_leb. apply Z.leb_gt, Hc. }
    rewrite Hf. reflexivity.
Qed.

(** C2 -- the Inactive branch with the activator confirmed. With a desired
    scale of 0, scale to zero enabled, the PA Inactive ([Active=False]) and
    the synchronous probe answering [present = true]: if
    [CanScaleToZero(now, grace)] the function returns [(0, true)]; otherwise,
    with [to = grace - sks.Status.ProxyFor()] (in Duration arithmetic), if
    [to <= 0] it returns [(0, true)], and if [to > 0] it calls
    [enqueueCB(pa, to)] and returns [(0, false)]. The calls are the clock
    read, those of the probe, then the ones named. *)
Theorem inactive_activator_confirmed :
  EnableScaleToZero (Autoscaler (FromContext ctx)) = true ->
  Status (Active (PAStatus pa)) = ConditionFalse ->
  let ks := scalerWith psf probe in
  let now : Time := o n time_Now in
  let probing := run o (S n) (probe pa (scaler.transport ks)) in
  fst (snd probing) = true ->
  let grace := ScaleToZeroGracePeriod (Autoscaler (FromContext ctx)) in
  let proxyFor : Duration.t :=
    o (S n + List.length (fst probing))%nat (ProxyFor (SKSStatus sks)) in
  let to := Duration.sub grace proxyFor in
  let outcome := run o n (handleScaleToZero ks ctx pa sks 0) in
  (CanScaleToZero (PAStatus pa) now grace = true ->
   outcome = (time_Now :: fst probing, (0, true))) /\
  (CanScaleToZero (PAStatus pa) now grace = false -> to <= 0 ->
   outcome =
   (time_Now :: fst probing ++ [ProxyFor (SKSStatus sks)], (0, true))) /\
  (CanScaleToZero (PAStatus pa) now grace = false -> to > 0 ->
   outcome =
   (time_Now :: fst probing ++ [ProxyFor (SKSStatus sks); Enqueue pa to],
    (0, false))).
Proof.
  intros He Hs ks now probing Hp grace proxyFor to outcome. subst outcome ks.
  rewrite hstz_inactive by assumption. cbv zeta.
  change (scaler.transport (scalerWith psf probe)) with NewProberTransport
    in probing.
  fold probing. rewrite Hp. fold grace. fold now. fold proxyFor. fold to.
  repeat split.
  - intros ->. reflexivity.
  - intros -> Hto. apply Z.leb_le in Hto. rewrite Hto. reflexivity.
  - intros -> Hto. assert (Hf : (to <=? 0) = false) by (apply Z.leb_gt; lia).
    rewrite Hf. reflexivity.
Qed.

End Decision.

(** ** Re-enqueueing and probing *)

Section Reenqueue.

Context {imports : Imports}.
Variable psf : InformerFactory.
Variable probe : PodAutoscaler -> RoundTripper -> Prog (bool * option error).
Variables (ctx : Context) (pa : PodAutoscaler) (sks : ServerlessService).
Variables (o : Oracle) (n : nat).

Lemma clamp_assign (newScale desiredScale : int32) :
  (if negb (newScale =? desiredScale) then newScale else desiredScale)
  = newScale.
Proof.
  destruct (Z.eqb_spec newScale desiredScale); simpl; congruence.
Qed.

(** [scale] in terms of the decision it delegates to. *)
Lemma scale_run (ks : scaler.t) (desiredScale : int32) :
  run o n (scale ks ctx pa sks desiredScale) =
  if (desiredScale <? 0) && negb (IsActivating (PAStatus pa))
  then ([], (desiredScale, None))
  else
    let clamped :=
      applyBounds (fst (ScaleBounds pa)) (snd (ScaleBounds pa))
        desiredScale in
    let decision := run o n (handleScaleToZero ks ctx pa sks clamped) in
    let decided := fst (snd decision) in
    if negb (snd (snd decision)) then (fst decision, (decided, None))
    else
      let m := (n + List.length (fst decision))%nat in
      let get :=
        GetScaleResource (Namespace pa) (ScaleTargetRef (Spec pa))
          (scaler.psInformerFactory ks) in
      match o m get with
      | inr err =>
          (fst decision ++ [get], (decided, Some (FailedToGetScaleTarget err)))
      | inl ps =>
          if decided =? currentScale ps
          then (fst decision ++ [get], (decided, None))
          else
            let applied := run o (S m) (applyScale ks ctx pa decided ps) in
            (fst decision ++ get :: fst applied, (decided, snd applied))
      end.
Proof.
  unfold scale.
  destruct ((desiredScale <? 0) && negb (IsActivating (PAStatus pa)));
    [reflexivity |].
  destruct (ScaleBounds pa) as [min max]. cbn [fst snd].
  rewrite clamp_assign. rewrite run_bind. cbv zeta.
  destruct (run o n (handleScaleToZero ks ctx pa sks
                       (applyBounds min max desiredScale)))
    as [tr [decided [|]]]; cbn [fst snd negb].
  - cbn [call bind]. rewrite run_vis. unfold calls, result.
    destruct (o (n + List.length tr)%nat _) as [ps | err].
    + unfold currentScale. destruct (decided =? _).
      * reflexivity.
      * rewrite run_bind. cbn [run fst snd]. rewrite app_nil_r.
        reflexivity.
    + reflexivity.
  - cbn [run fst snd]. rewrite app_nil_r. reflexivity.
Qed.

(** The decision itself patches nothing. *)
Lemma hstz_patch_free (desiredScale : int32) :
  patch_free probe ->
  patches
    (calls o n (handleScaleToZero (scalerWith psf probe) ctx pa sks
                  desiredScale)) = [].
Proof.
  intros Hp. unfold calls.
  destruct (Z.eq_dec desiredScale 0) as [-> | Hd];
    [| rewrite hstz_nonzero by assumption; reflexivity].
  destruct (EnableScaleToZero (Autoscaler (FromContext ctx))) eqn:He;
    [| rewrite hstz_disabled by assumption; reflexivity].
  destruct (Status (Active (PAStatus pa))) eqn:Hs.
  - rewrite hstz_active by assumption. cbv zeta.
    destruct (_ >=? _); [destruct (Mode (SKSSpec sks)) |]; reflexivity.
  - rewrite hstz_inactive by assumption. cbv zeta.
    pose proof (Hp o (S n) pa NewProberTransport) as Hq. unfold calls in Hq.
    destruct (fst (snd (run o (S n) (probe pa NewProberTransport))));
      [destruct (CanScaleToZero _ _ _); [| destruct (_ <=? 0)] |];
      cbn [fst]; unfold patches in *; cbn [filter is_Patch];
      try rewrite filter_app; rewrite Hq; reflexivity.
  - rewrite hstz_activating by assumption. cbv zeta.
    destruct (CanFailActivation _ _ _); reflexivity.
Qed.

(** C5 -- probe failure handling. With a desired scale of 0, scale to zero
    enabled and the PA Inactive, whenever the synchronous probe answers
    [present = false], whatever its error, [handleScaleToZero] calls
    [probeManager.Offer] for the PA's probe target with period 1s and
    timeout 45s and returns [(0, false)], whatever [Offer] answers; [scale],
    reaching the decision with a clamped scale of 0, then returns 0 with a
    nil error and neither looks up nor patches the target. *)
Theorem probe_failure_offers :
  EnableScaleToZero (Autoscaler (FromContext ctx)) = true ->
  Status (Active (PAStatus pa)) = ConditionFalse ->
  let ks := scalerWith psf probe in
  let probing := run o (S n) (probe pa (scaler.transport ks)) in
  fst (snd probing) = false ->
  let made :=
    time_Now :: fst probing
      ++ [Offer (paToProbeTarget pa) pa 1000000000 45000000000
            probeOptions] in
  run o n (handleScaleToZero ks ctx pa sks 0) = (made, (0, false)) /\
  (forall desiredScale : int32,
      0 <= desiredScale ->
      applyBounds (fst (ScaleBounds pa)) (snd (ScaleBounds pa)) desiredScale
      = 0 ->
      run o n (scale ks ctx pa sks desiredScale) = (made, (0, None))).
Proof.
  intros He Hs ks probing Hp made.
  assert (Hrun : run o n (handleScaleToZero ks ctx pa sks 0)
                 = (made, (0, false))).
  { subst ks made. rewrite hstz_inactive by assumption. cbv zeta.
    change (scaler.transport (scalerWith psf probe)) with NewProberTransport
      in probing.
    fold probing. rewrite Hp.
    replace probePeriod with 1000000000 by (symmetry; apply constants_ns).
    replace probeTimeout with 45000000000 by (symmetry; apply constants_ns).
    reflexivity. }
  split; [exact Hrun |].
  intros desiredScale Hd Hc. rewrite scale_run.
  assert (Hlt : (desiredScale <? 0) = false) by (apply Z.ltb_ge; exact Hd).
  rewrite Hlt. cbn [andb]. cbv zeta. rewrite Hc, Hrun. reflexivity.
Qed.

(** C1 (as amended) -- re-enqueue completeness. An invocation of
    [handleScaleToZero] with a desired scale of 0 and scale to zero enabled
    that returns [shouldApply = false] has called [enqueueCB] for the PA with
    some delay, or [probeManager.Offer] for the PA's probe target, except
    when the PA is Active past its stable window and the SKS is in Serve
    mode: then it has only read the clock. The completion callback
    [newScaler] gives the probe manager re-enqueues its argument after 1s
    whatever the outcome of the probe. *)
Theorem reenqueue_completeness_amended :
  let ks := scalerWith psf probe in
  (EnableScaleToZero (Autoscaler (FromContext ctx)) = true ->
   snd (result o n (handleScaleToZero ks ctx pa sks 0)) = false ->
   reenqueues pa (calls o n (handleScaleToZero ks ctx pa sks 0)) \/
   (Status (Active (PAStatus pa)) = ConditionTrue /\
    ActiveFor (PAStatus pa) (o n time_Now)
    >= StableWindow pa (Autoscaler (FromContext ctx)) /\
    Mode (SKSSpec sks) = SKSOperationModeServe /\
    calls o n (handleScaleToZero ks ctx pa sks 0) = [time_Now])) /\
  (forall (arg : PodAutoscaler) (success : bool) (err : option error)
          (m : nat),
      run o m (newScaler_probeDone EnqueueAfter arg success err)
      = ([Enqueue arg 1000000000], tt)).
Proof.
  intros ks. split.
  2:{ intros arg success err m.
      unfold newScaler_probeDone, EnqueueAfter, call. rewrite run_vis.
      unfold calls, result. cbn [run fst snd].
      replace reenqeuePeriod with 1000000000
        by (symmetry; apply constants_ns).
      destruct (o m (Enqueue arg 1000000000)). reflexivity. }
  intros He. unfold calls, result, reenqueues. subst ks.
  destruct (Status (Active (PAStatus pa))) eqn:Hs.
  - rewrite hstz_active by assumption. cbv zeta.
    destruct (_ >=? _) eqn:Hge.
    + destruct (Mode (SKSSpec sks)) eqn:Hm; cbn [fst snd]; intros _.
      * right. apply Z.geb_ge in Hge. repeat split; auto.
      * left. left. eexists. right. left. reflexivity.
    + cbn [fst snd]. discriminate.
  - rewrite hstz_inactive by assumption. cbv zeta.
    destruct (fst (snd (run o (S n) (probe pa NewProberTransport)))).
    + destruct (CanScaleToZero _ _ _); [cbn [fst snd]; discriminate |].
      destruct (_ <=? 0); cbn [fst snd]; [discriminate |].
      intros _. left. left. eexists. right. apply in_or_app. right.
      right. left. reflexivity.
    + cbn [fst snd]. intros _. left. right. do 3 eexists.
      right. apply in_or_app. right. left. reflexivity.
  - rewrite hstz_activating by assumption. cbv zeta.
    destruct (CanFailActivation _ _ _); cbn [fst snd]; [discriminate |].
    intros _. left. left. eexists. right. left. reflexivity.
Qed.

End Reenqueue.

(** ** The clamp *)

Lemma applyBounds_cases (min max x : int32) :
  (x < min /\ applyBounds min max x = min) \/
  (min <= x /\ max <> 0 /\ x > max /\ applyBounds min max x = max) \/
  (min <= x /\ (max = 0 \/ x <= max) /\ applyBounds min max x = x).
Proof.
  unfold applyBounds.
  destruct (Z.ltb_spec x min); [left; split; [lia | reflexivity] |].
  destruct (Z.eqb_spec max 0); cbn [negb andb].
  - right. right. repeat split; auto.
  - rewrite Z.gtb_ltb. destruct (Z.ltb_spec max x).
    + right. left. repeat split; auto; lia.
    + right. right. repeat split; auto.
Qed.

(** C8 -- the bounds clamp. For [0 <= min], [min <= max] when [max <> 0],
    and [x >= 0]: [applyBounds min max x] is [min] if [x < min], [max] if
    [max <> 0] and [x > max], and [x] otherwise; so the result is at least
    [min], at most [max] unless [max = 0], and clamping twice is clamping
    once. *)
Theorem applyBounds_clamp (min max x : int32) :
  0 <= min -> (max <> 0 -> min <= max) -> 0 <= x ->
  (x < min -> applyBounds min max x = min) /\
  (max <> 0 -> x > max -> applyBounds min max x = max) /\
  (~ x < min -> ~ (max <> 0 /\ x > max) -> applyBounds min max x = x) /\
  min <= applyBounds min max x /\
  (max <> 0 -> applyBounds min max x <= max) /\
  applyBounds min max (applyBounds min max x) = applyBounds min max x.
Proof.
  intros Hmin Hmax Hx.
  destruct (applyBounds_cases min max x)
    as [[H1 E] | [[H1 [H2 [H3 E]]] | [H1 [H2 E]]]]; rewrite E.
  - repeat split; intros; try lia.
    destruct (applyBounds_cases min max min)
      as [[G1 G] | [[G1 [G2 [G3 G]]] | [G1 [G2 G]]]]; lia.
  - repeat split; intros; try lia.
    destruct (applyBounds_cases min max max)
      as [[G1 G] | [[G1 [G2 [G3 G]]] | [G1 [G2 G]]]]; lia.
  - repeat split; intros; lia.
Qed.

(** ** The synchronous probe *)

(** C9 -- probe without service. For a PA whose [status.serviceName] is
    empty, [activatorProbe] returns [(false, nil)] and makes no call at all,
    in particular no network request. *)
Theorem activatorProbe_without_service {imports : Imports}
    (pa : PodAutoscaler) (transport : RoundTripper) (o : Oracle) (n : nat) :
  ServiceName (PAStatus pa) = "" ->
  run o n (activatorProbe pa transport) = ([], (false, None)).
Proof.
  intros H. unfold activatorProbe. rewrite H. reflexivity.
Qed.

(** With a service name the probe is one request to the probe target, and
    its answer is the probe's. *)
Lemma activatorProbe_with_service {imports : Imports}
    (pa : PodAutoscaler) (transport : RoundTripper) (o : Oracle) (n : nat) :
  ServiceName (PAStatus pa) <> "" ->
  run o n (activatorProbe pa transport) =
  ([prober_Do transport (paToProbeTarget pa) probeOptions],
   o n (prober_Do transport (paToProbeTarget pa) probeOptions)).
Proof.
  intros H. unfold activatorProbe.
  apply String.eqb_neq in H. rewrite H. reflexivity.
Qed.

Lemma activatorProbe_patch_free {imports : Imports} :
  patch_free activatorProbe.
Proof.
  intros o n pa transport. unfold calls, activatorProbe.
  destruct (String.eqb _ _); reflexivity.
Qed.

Lemma injectedProbe_patch_free : patch_free injectedProbe.
Proof. intros o n pa transport. reflexivity. Qed.

(** ** The top-level scale *)

Section Scale.

Context {imports : Imports}.
Variable psf : InformerFactory.
Variable probe : PodAutoscaler -> RoundTripper -> Prog (bool * option error).
Variables (ctx : Context) (pa : PodAutoscaler) (sks : ServerlessService).
Variables (o : Oracle) (n : nat).

(** C7 -- patch gating. For a synchronous probe that does not patch, [scale]
    issues a PATCH only if [handleScaleToZero], run on the clamped scale,
    returned [shouldApply = true] and the decided scale differs from the
    current scale of the target ([ps.Spec.Replicas], 1 when absent). In
    every case [scale] returns the decided value (the desired scale itself
    when it returns before deciding), and when the decision is not to apply,
    [scale] makes no call beyond the decision's and returns a nil error. *)
Theorem patch_gating (desiredScale : int32) :
  patch_free probe ->
  let ks := scalerWith psf probe in
  let early := (desiredScale <? 0) && negb (IsActivating (PAStatus pa)) in
  let clamped :=
    applyBounds (fst (ScaleBounds pa)) (snd (ScaleBounds pa)) desiredScale in
  let decision := run o n (handleScaleToZero ks ctx pa sks clamped) in
  let decided := if early then desiredScale else fst (snd decision) in
  let outcome := run o n (scale ks ctx pa sks desiredScale) in
  fst (snd outcome) = decided /\
  (patches (fst outcome) <> [] ->
   early = false /\ snd (snd decision) = true /\
   exists ps : PodScalable,
     o (n + List.length (fst decision))%nat
       (GetScaleResource (Namespace pa) (ScaleTargetRef (Spec pa))
          (scaler.psInformerFactory ks)) = inl ps /\
     decided <> currentScale ps) /\
  (early = true -> outcome = ([], (desiredScale, None))) /\
  (early = false -> snd (snd decision) = false ->
   outcome = (fst decision, (decided, None))).
Proof.
  intros Hpf ks early clamped decision decided outcome.
  pose proof (hstz_patch_free psf probe ctx pa sks o n clamped Hpf) as Hh.
  unfold calls in Hh. fold ks in Hh. fold decision in Hh.
  subst outcome decided. rewrite scale_run. fold early. cbv zeta.
  fold clamped. fold decision.
  destruct early.
  { cbn [fst snd]. split; [reflexivity |]. split; [| split].
    - intros H. exfalso. apply H. reflexivity.
    - reflexivity.
    - discriminate. }
  destruct decision as [tr [dv [|]]]; cbn [fst snd negb] in *.
  - destruct (o (n + List.length tr)%nat _) as [ps | err] eqn:Hget.
    + destruct (Z.eqb_spec dv (currentScale ps)) as [Heq | Hne];
        cbn [fst snd]; (split; [reflexivity |]); (split; [| split]);
        try discriminate.
      * intros H. exfalso. apply H. rewrite patches_app, Hh. reflexivity.
      * intros _. split; [reflexivity |]. split; [reflexivity |].
        exists ps. split; [reflexivity | exact Hne].
    + cbn [fst snd]. split; [reflexivity |]. split; [| split];
        try discriminate.
      intros H. exfalso. apply H. rewrite patches_app, Hh. reflexivity.
  - split; [reflexivity |]. split; [| split]; try discriminate.
    + intros H. exfalso. apply H. exact Hh.
    + reflexivity.
Qed.

(** C10 -- a negative input to the clamp is benign. [applyBounds] maps
    int32 inputs to an int32 and returns [min] whenever [x < min], also for
    negative [x]. Hence in [scale], when the desired scale is negative, the
    PA is Activating and [min >= 0]: the clamped value is [min]; [scale]
    returns what [handleScaleToZero] decides for [min], making the
    decision's calls first; a decision to apply decides a non-negative
    scale, and so a run of [scale] that patches applies (and returns) a
    non-negative replica count. *)
Theorem negative_clamp_benign :
  (forall min max x : int32,
      is_int32 min -> is_int32 max -> is_int32 x ->
      is_int32 (applyBounds min max x)) /\
  (forall min max x : int32, x < min -> applyBounds min max x = min) /\
  (forall desiredScale : int32,
      desiredScale < 0 ->
      Status (Active (PAStatus pa)) = ConditionUnknown ->
      0 <= fst (ScaleBounds pa) ->
      let ks := scalerWith psf probe in
      let min := fst (ScaleBounds pa) in
      let decision := run o n (handleScaleToZero ks ctx pa sks min) in
      let outcome := run o n (scale ks ctx pa sks desiredScale) in
      applyBounds min (snd (ScaleBounds pa)) desiredScale = min /\
      fst (snd outcome) = fst (snd decision) /\
      (exists rest, fst outcome = fst decision ++ rest) /\
      (snd (snd decision) = false ->
       outcome = (fst decision, (fst (snd decision), None))) /\
      (snd (snd decision) = true -> 0 <= fst (snd decision)) /\
      (patches (fst outcome) <> [] -> 0 <= fst (snd outcome))).
Proof.
  split; [| split].
  - intros min max x Hmin Hmax Hx.
    destruct (applyBounds_cases min max x)
      as [[_ E] | [[_ [_ [_ E]]] | [_ [_ E]]]]; rewrite E; assumption.
  - intros min max x H.
    destruct (applyBounds_cases min max x)
      as [[_ E] | [[G _] | [G _]]]; [exact E | lia | lia].
  - intros desiredScale Hneg Hs Hmin ks min decision outcome.
    assert (Hclamp : applyBounds min (snd (ScaleBounds pa)) desiredScale
                     = min).
    { destruct (applyBounds_cases min (snd (ScaleBounds pa)) desiredScale)
        as [[_ E] | [[G _] | [G _]]]; [exact E | subst min; lia ..]. }
    assert (Hdec :
              (snd (snd decision) = true -> 0 <= fst (snd decision)) /\
              patches (fst decision) = []).
    { subst decision ks.
      destruct (Z.eq_dec min 0) as [E0 | Hne].
      - rewrite E0.
        destruct (EnableScaleToZero (Autoscaler (FromContext ctx))) eqn:He.
        + rewrite hstz_activating by assumption. cbv zeta.
          destruct (CanFailActivation _ _ _); cbn [fst snd]; split;
            try reflexivity; try discriminate; lia.
        + rewrite hstz_disabled by assumption. cbn [fst snd].
          split; [lia | reflexivity].
      - rewrite hstz_nonzero by assumption. cbn [fst snd].
        split; [subst min; lia | reflexivity]. }
    destruct Hdec as [Hpos Hnop].
    assert (Hrun := scale_run ctx pa sks o n ks desiredScale).
    fold outcome in Hrun.
    assert (Hearly : (desiredScale <? 0)
                     && negb (IsActivating (PAStatus pa)) = false).
    { unfold IsActivating. rewrite Hs. apply andb_false_r. }
    rewrite Hearly in Hrun. cbv zeta in Hrun. fold min in Hrun.
    rewrite Hclamp in Hrun. fold decision in Hrun.
    split; [exact Hclamp |].
    destruct decision as [tr [dv [|]]]; cbn [fst snd negb] in *.
    + assert (Hdv : 0 <= dv) by (apply Hpos; reflexivity).
      assert (Hout : fst (snd outcome) = dv /\
                     exists rest, fst outcome = tr ++ rest).
      { destruct (o (n + List.length tr)%nat _) as [ps | err];
          [destruct (dv =? currentScale ps) |];
          rewrite Hrun; cbn [fst snd]; (split; [reflexivity |]);
          eexists; reflexivity. }
      destruct Hout as [Hv Hrest].
      split; [exact Hv |]. split; [exact Hrest |].
      split; [discriminate |]. split; [intros _; exact Hdv |].
      intros _. rewrite Hv. exact Hdv.
    + rewrite Hrun; cbn [fst snd].
      split; [reflexivity |].
      split; [exists []; rewrite app_nil_r; reflexivity |].
      split; [reflexivity |]. split; [discriminate |].
      intros H. exfalso. apply H. exact Hnop.
Qed.

End Scale.

(** When [scale] decides to apply, under the bounds invariant of the data
    model ([0 <= min], [0 <= max]), the scale it decides is not negative,
    whatever the desired scale. *)
Lemma scale_applies_nonnegative {imports : Imports} (psf : InformerFactory)
    (probe : PodAutoscaler -> RoundTripper -> Prog (bool * option error))
    (ctx : Context) (pa : PodAutoscaler) (sks : ServerlessService)
    (o : Oracle) (n : nat) (desiredScale : int32) :
  0 <= fst (ScaleBounds pa) -> 0 <= snd (ScaleBounds pa) ->
  (desiredScale <? 0) && negb (IsActivating (PAStatus pa)) = false ->
  let clamped :=
    applyBounds (fst (ScaleBounds pa)) (snd (ScaleBounds pa)) desiredScale in
  let decision :=
    run o n (handleScaleToZero (scalerWith psf probe) ctx pa sks clamped) in
  snd (snd decision) = true -> 0 <= fst (snd decision).
Proof.
  intros Hmin Hmax Hearly clamped decision.
  assert (Hc : 0 <= clamped).
  { subst clamped.
    destruct (applyBounds_cases (fst (ScaleBounds pa))
                (snd (ScaleBounds pa)) desiredScale)
      as [[_ E] | [[_ [_ [_ E]]] | [G [_ E]]]]; rewrite E; lia. }
  subst decision. destruct (Z.eq_dec clamped 0) as [-> | Hne].
  - destruct (EnableScaleToZero (Autoscaler (FromContext ctx))) eqn:He;
      [| rewrite hstz_disabled by assumption; cbn [fst snd]; lia].
    destruct (Status (Active (PAStatus pa))) eqn:Hs.
    + rewrite hstz_active by assumption. cbv zeta.
      destruct (_ >=? _); [destruct (Mode (SKSSpec sks)) |];
        cbn [fst snd]; intros; lia.
    + rewrite hstz_inactive by assumption. cbv zeta.
      destruct (fst (snd (run o (S n) (probe pa NewProberTransport))));
        [destruct (CanScaleToZero _ _ _); [| destruct (_ <=? 0)] |];
        cbn [fst snd]; intros; lia.
    + rewrite hstz_activating by assumption. cbv zeta.
      destruct (CanFailActivation _ _ _); cbn [fst snd];
        [intros; lia | discriminate].
  - rewrite hstz_nonzero by assumption. cbn [fst snd]. intros _. exact Hc.
Qed.

(** * The scenarios of the specification

    All with grace = 30s, stableWindow = 60s, progressDeadline = 600s, hence
    an activation timeout of 610s, on the scaler [newScaler] builds. *)

Section Scenarios.

#[local] Existing Instance specImports.

(** 1. Steady-state positive scale. *)
Example scenario_steady_state :
  run (scenarioOracle (seconds 1000) (true, None) 0 (Some 3)) 0
    (scale scenarioScaler (scenarioCtx true)
       (scenarioPA ConditionTrue 0 "svc" 1 10) scenarioServe 5)
  = ([scenarioGet; scenarioPatch 3 5], (5, None)).
Proof. reflexivity. Qed.

(** 2. Hot Active, not yet stable. *)
Example scenario_hot_active :
  let pa := scenarioPA ConditionTrue 0 "svc" 0 10 in
  run (scenarioOracle (seconds 10) (true, None) 0 (Some 3)) 0
    (handleScaleToZero scenarioScaler (scenarioCtx true) pa scenarioServe 0)
  = ([time_Now; Enqueue pa 50000000000], (1, true)).
Proof. reflexivity. Qed.

(** 3. Cool Active, SKS already proxying. *)
Example scenario_cool_active_proxy :
  let pa := scenarioPA ConditionTrue 0 "svc" 0 10 in
  run (scenarioOracle (seconds 120) (true, None) 0 (Some 3)) 0
    (handleScaleToZero scenarioScaler (scenarioCtx true) pa scenarioProxy 0)
  = ([time_Now; Enqueue pa 3000000000], (0, false)).
Proof. reflexivity. Qed.

(** 4. Inactive, activator confirmed fresh. *)
Example scenario_inactive_fresh :
  let pa := scenarioPA ConditionFalse 0 "svc" 0 10 in
  run (scenarioOracle (seconds 10) (true, None) (seconds 5) (Some 3)) 0
    (scale scenarioScaler (scenarioCtx true) pa scenarioProxy 0)
  = ([time_Now; scenarioProbeRequest; ProxyFor (SKSStatus scenarioProxy);
      Enqueue pa 25000000000],
     (0, None)).
Proof. reflexivity. Qed.

(** 5. Inactive, activator confirmed, past grace via SKS. *)
Example scenario_inactive_past_grace :
  let pa := scenarioPA ConditionFalse 0 "svc" 0 10 in
  run (scenarioOracle (seconds 10) (true, None) (seconds 31) (Some 3)) 0
    (scale scenarioScaler (scenarioCtx true) pa scenarioProxy 0)
  = ([time_Now; scenarioProbeRequest; ProxyFor (SKSStatus scenarioProxy);
      scenarioGet; scenarioPatch 3 0],
     (0, None)).
Proof. reflexivity. Qed.

(** 6. Inactive, activator unreachable. *)
Example scenario_inactive_unreachable :
  let pa := scenarioPA ConditionFalse 0 "svc" 0 10 in
  run (scenarioOracle (seconds 10) (false, Some (ExternalError "timeout"))
         0 (Some 3)) 0
    (scale scenarioScaler (scenarioCtx true) pa scenarioServe 0)
  = ([time_Now; scenarioProbeRequest;
      Offer "http://svc.ns:80/healthz" pa 1000000000 45000000000
        probeOptions],
     (0, None)).
Proof. reflexivity. Qed.

(** 7. Activating timed out. *)
Example scenario_activating_timed_out :
  run (scenarioOracle (seconds 620) (false, None) 0 (Some 3)) 0
    (scale scenarioScaler (scenarioCtx true)
       (scenarioPA ConditionUnknown 0 "svc" 0 10) scenarioServe 0)
  = ([time_Now; scenarioGet; scenarioPatch 3 0], (0, None)).
Proof. reflexivity. Qed.

(** * The theorems at concrete inputs *)

(** C1, the claim as stated fails: a PA Active for 120s, past its stable
    window of 60s, with the SKS in Serve mode. [handleScaleToZero] returns
    [(0, false)] having only read the clock: nothing is enqueued and nothing
    is offered to the probe manager. *)
Lemma reenqueue_completeness_fails_in_serve_mode :
  let pa := scenarioPA ConditionTrue 0 "svc" 0 10 in
  let o := scenarioOracle (seconds 120) (true, None) 0 (Some 3) in
  run o 0
    (handleScaleToZero scenarioScaler (scenarioCtx true) pa scenarioServe 0)
  = ([time_Now], (0, false)) /\
  ~ reenqueue_complete scenarioScaler (scenarioCtx true) pa scenarioServe
      o 0.
Proof.
  split; [reflexivity |].
  intros H. specialize (H eq_refl eq_refl).
  destruct H as [[d H] | [p [t [op H]]]];
    simpl in H; destruct H as [H | []]; discriminate H.
Qed.

Lemma reenqueue_completeness_amended_witness :
  let pa := scenarioPA ConditionFalse 0 "svc" 0 10 in
  let o := scenarioOracle (seconds 10) (false, None) 0 (Some 3) in
  reenqueues pa
    (calls o 0
       (handleScaleToZero scenarioScaler (scenarioCtx true) pa
          scenarioServe 0)).
Proof.
  intros pa o.
  destruct (proj1 (reenqueue_completeness_amended (informerFactory 0)
                     activatorProbe (scenarioCtx true) pa scenarioServe
                     o 0)
              eq_refl eq_refl) as [H | [H _]].
  - exact H.
  - discriminate H.
Defined.

Lemma zero_gating_witness :
  run (scenarioOracle (seconds 10) (true, None) 0 (Some 3)) 0
    (handleScaleToZero scenarioScaler (scenarioCtx false)
       (scenarioPA ConditionFalse 0 "svc" 0 10) scenarioServe 0)
  = ([], (1, true)).
Proof.
  apply zero_gating; reflexivity.
Defined.

Lemma activating_branch_witness :
  let pa := scenarioPA ConditionUnknown 0 "svc" 0 10 in
  let o := scenarioOracle (seconds 10) (true, None) 0 (Some 3) in
  run o 0
    (handleScaleToZero scenarioScaler (scenarioCtx true) pa scenarioServe 0)
  = ([time_Now; Enqueue pa 610000000000], (-1, false)).
Proof.
  intros pa o.
  apply (activating_branch (informerFactory 0) activatorProbe
           (scenarioCtx true) pa scenarioServe o 0);
    reflexivity.
Defined.

Lemma active_branch_witness :
  let pa := scenarioPA ConditionTrue 0 "svc" 0 10 in
  let o := scenarioOracle (seconds 120) (true, None) 0 (Some 3) in
  fst (run o 0
         (handleScaleToZero scenarioScaler (scenarioCtx true) pa
            scenarioProxy 0))
  = [time_Now; Enqueue pa 3000000000].
Proof.
  intros pa o.
  apply (active_branch (informerFactory 0) activatorProbe
           (scenarioCtx true) pa scenarioProxy o 0);
    first [reflexivity | vm_compute; discriminate].
Defined.

Lemma inactive_activator_confirmed_witness :
  let pa := scenarioPA ConditionFalse 0 "svc" 0 10 in
  let o := scenarioOracle (seconds 10) (true, None) (seconds 5) (Some 3) in
  run o 0
    (handleScaleToZero scenarioScaler (scenarioCtx true) pa scenarioProxy 0)
  = ([time_Now; scenarioProbeRequest; ProxyFor (SKSStatus scenarioProxy);
      Enqueue pa 25000000000],
     (0, false)).
Proof.
  intros pa o.
  exact (proj2 (proj2
           (inactive_activator_confirmed (informerFactory 0) activatorProbe
              (scenarioCtx true) pa scenarioProxy o 0
              eq_refl eq_refl eq_refl))
           eq_refl eq_refl).
Defined.

Lemma probe_failure_offers_witness :
  let pa := scenarioPA ConditionFalse 0 "" 0 10 in
  let o :=
    scenarioOracle (seconds 10) (false, Some (ExternalError "refused")) 0
      (Some 3) in
  run o 0
    (handleScaleToZero scenarioScaler (scenarioCtx true) pa scenarioServe 0)
  = ([time_Now;
      Offer (paToProbeTarget pa) pa 1000000000 45000000000 probeOptions],
     (0, false)).
Proof.
  intros pa o.
  apply (probe_failure_offers (informerFactory 0) activatorProbe
           (scenarioCtx true) pa scenarioServe o 0);
    reflexivity.
Defined.

Lemma patch_gating_witness :
  let pa := scenarioPA ConditionTrue 0 "svc" 1 10 in
  let o := scenarioOracle (seconds 1000) (true, None) 0 (Some 3) in
  fst (snd (run o 0
              (scale scenarioScaler (scenarioCtx true) pa scenarioServe 5)))
  = 5.
Proof.
  intros pa o.
  exact (proj1
           (patch_gating (informerFactory 0) activatorProbe
              (scenarioCtx true) pa scenarioServe o 0 5
              activatorProbe_patch_free)).
Defined.

Lemma applyBounds_clamp_witness :
  applyBounds 1 10 0 = 1 /\ applyBounds 1 10 12 = 10 /\
  applyBounds 1 0 12 = 12.
Proof.
  split; [| split].
  - apply (applyBounds_clamp 1 10 0); lia.
  - apply (applyBounds_clamp 1 10 12); lia.
  - apply (applyBounds_clamp 1 0 12); lia.
Defined.

Lemma activatorProbe_without_service_witness :
  run (scenarioOracle (seconds 10) (true, None) 0 (Some 3)) 0
    (activatorProbe (scenarioPA ConditionFalse 0 "" 0 10)
       NewProberTransport)
  = ([], (false, None)).
Proof.
  apply activatorProbe_without_service. reflexivity.
Defined.

Lemma negative_clamp_benign_witness :
  let pa := scenarioPA ConditionUnknown 0 "svc" 2 10 in
  let o := scenarioOracle (seconds 10) (true, None) 0 (Some 3) in
  applyBounds 2 10 (-1) = 2 /\
  fst (snd (run o 0
              (scale scenarioScaler (scenarioCtx true) pa scenarioServe
                 (-1))))
  = 2.
Proof.
  intros pa o.
  destruct (proj2 (proj2
              (negative_clamp_benign (informerFactory 0) activatorProbe
                 (scenarioCtx true) pa scenarioServe o 0)) (-1))
    as [A [B _]].
  - lia.
  - reflexivity.
  - simpl. lia.
  - split; [exact A | exact B].
Defined.

End Scenarios.

(** * Further properties of the scaler *)

(** ** More on the clamp *)

(** X1 -- with well-formed bounds the clamp is the usual one; a [max] of 0
    leaves only the lower bound. *)
Theorem applyBounds_closed_form (min max x : int32) :
  (max <> 0 -> min <= max) ->
  applyBounds min max x =
  if max =? 0 then Z.max min x else Z.max min (Z.min max x).
Proof.
  intros Hb.
  destruct (applyBounds_cases min max x)
    as [[H1 E] | [[H1 [H2 [H3 E]]] | [H1 [[H2 | H2] E]]]]; rewrite E;
    destruct (Z.eqb_spec max 0); lia.
Qed.

Lemma applyBounds_closed_form_witness :
  applyBounds 2 5 9 = 5 /\ applyBounds 2 0 9 = 9.
Proof.
  split.
  - apply (applyBounds_closed_form 2 5 9). lia.
  - apply (applyBounds_closed_form 2 0 9). lia.
Defined.

(** X2 -- with well-formed bounds a larger desired scale never clamps to a
    smaller one. *)
Theorem applyBounds_monotone (min max x y : int32) :
  (max <> 0 -> min <= max) ->
  x <= y ->
  applyBounds min max x <= applyBounds min max y.
Proof.
  intros Hb Hxy.
  destruct (applyBounds_cases min max x)
    as [[H1 E] | [[H1 [H2 [H3 E]]] | [H1 [H2 E]]]]; rewrite E;
    destruct (applyBounds_cases min max y)
      as [[G1 F] | [[G1 [G2 [G3 F]]] | [G1 [G2 F]]]]; rewrite F; lia.
Qed.

Lemma applyBounds_monotone_witness :
  applyBounds 2 5 1 <= applyBounds 2 5 9.
Proof.
  apply (applyBounds_monotone 2 5 1 9); lia.
Defined.

(** X3 -- outside its precondition, with [min] above a non-zero [max], the lower
    bound is checked first: a scale below [min] becomes [min], which exceeds
    [max], and every other scale becomes [max], which is below [min]. *)
Theorem applyBounds_inverted_bounds (min max x : int32) :
  max <> 0 -> max < min ->
  applyBounds min max x = if x <? min then min else max.
Proof.
  intros Hm Hinv.
  destruct (applyBounds_cases min max x)
    as [[H1 E] | [[H1 [H2 [H3 E]]] | [H1 [[H2 | H2] E]]]]; rewrite E;
    destruct (Z.ltb_spec x min); lia.
Qed.

Lemma applyBounds_inverted_bounds_witness :
  applyBounds 5 3 4 = 5 /\ applyBounds 5 3 7 = 3.
Proof.
  split.
  - apply (applyBounds_inverted_bounds 5 3 4); lia.
  - apply (applyBounds_inverted_bounds 5 3 7); lia.
Defined.

(** ** More on the decision *)

Lemma result_vis {A : Type} (o : Oracle) (c : Call) (k : Resp c -> Prog A)
    (m : nat) :
  result o m (Vis c k) = result o (S m) (k (o m c)).
Proof. unfold result. rewrite run_vis. reflexivity. Qed.

(** X4 -- what [handleScaleToZero] may return, for any scaler whatever its
    probe, probe manager and callback do: when it says apply, the scale is the
    desired one, or 1 in place of a desired 0; it says do not apply only for a
    desired 0 with scale to zero enabled, and then the scale is -1 for an
    Activating PA and 0 otherwise. *)
Theorem handleScaleToZero_result_domain {imports : Imports}
    (ks : scaler.t) (ctx : Context) (pa : PodAutoscaler)
    (sks : ServerlessService) (desiredScale : int32) (o : Oracle) (n : nat) :
  let r := result o n (handleScaleToZero ks ctx pa sks desiredScale) in
  (snd r = true ->
   fst r = desiredScale \/ (desiredScale = 0 /\ fst r = 1)) /\
  (snd r = false ->
   desiredScale = 0 /\
   EnableScaleToZero (Autoscaler (FromContext ctx)) = true /\
   ((Status (Active (PAStatus pa)) = ConditionUnknown
     /\ fst r = scaleUnknown) \/
    (Status (Active (PAStatus pa)) <> ConditionUnknown /\ fst r = 0))).
Proof.
  cbv zeta. unfold handleScaleToZero, IsActivating, IsReady.
  destruct (Z.eqb_spec desiredScale 0) as [-> | Hd]; cbn [negb].
  2:{ unfold result. cbn [run fst snd]. split; [auto | discriminate]. }
  destruct (EnableScaleToZero (Autoscaler (FromContext ctx))); cbn [negb].
  2:{ unfold result. cbn [run fst snd]. split; [auto | discriminate]. }
  cbn [call bind]. rewrite result_vis.
  destruct (Status (Active (PAStatus pa))) eqn:Hs.
  - destruct (_ >=? _); rewrite result_bind; unfold result;
      cbn [run fst snd]; (split; [auto | try discriminate]).
    intros _. repeat split. right. split; [discriminate | reflexivity].
  - rewrite result_bind.
    destruct (result o (S n) (scaler.activatorProbe ks pa _)) as [[|] err].
    + destruct (CanScaleToZero _ _ _).
      * unfold result. cbn [run fst snd]. split; [auto | discriminate].
      * cbn [call bind]. rewrite result_vis.
        destruct (_ <=? 0).
        -- unfold result. cbn [run fst snd]. split; [auto | discriminate].
        -- rewrite result_bind. unfold result. cbn [run fst snd].
           split; [discriminate |].
           intros _. repeat split. right. split; [discriminate | reflexivity].
    + rewrite result_bind. unfold result. cbn [run fst snd].
      split; [discriminate |].
      intros _. repeat split. right. split; [discriminate | reflexivity].
  - destruct (CanFailActivation _ _ _).
    + unfold result. cbn [run fst snd]. split; [auto | discriminate].
    + rewrite result_bind. unfold result. cbn [run fst snd].
      split; [discriminate |].
      intros _. repeat split. left. split; reflexivity.
Qed.

Section DecisionMore.

Context {imports : Imports}.
Variable psf : InformerFactory.
Variables (ctx : Context) (pa : PodAutoscaler) (sks : ServerlessService).
Variables (o : Oracle) (n : nat).

(** X5 -- the synchronous probe is consulted for an Inactive PA only: with a
    non-zero desired scale, with scale to zero disabled, or for a PA that is
    Active or Activating, the calls and the result of the decision are the
    same whatever function sits in the [activatorProbe] field. *)
Theorem probe_only_when_inactive
    (probe probe' : PodAutoscaler -> RoundTripper
                    -> Prog (bool * option error))
    (desiredScale : int32) :
  desiredScale <> 0 \/
  EnableScaleToZero (Autoscaler (FromContext ctx)) = false \/
  Status (Active (PAStatus pa)) <> ConditionFalse ->
  run o n (handleScaleToZero (scalerWith psf probe) ctx pa sks desiredScale)
  = run o n
      (handleScaleToZero (scalerWith psf probe') ctx pa sks desiredScale).
Proof.
  intros H.
  destruct (Z.eq_dec desiredScale 0) as [-> | Hd];
    [| rewrite !hstz_nonzero by assumption; reflexivity].
  destruct (EnableScaleToZero (Autoscaler (FromContext ctx))) eqn:He;
    [| rewrite !hstz_disabled by assumption; reflexivity].
  destruct (Status (Active (PAStatus pa))) eqn:Hs.
  - rewrite !hstz_active by assumption. reflexivity.
  - destruct H as [H | [H | H]]; congruence.
  - rewrite !hstz_activating by assumption. reflexivity.
Qed.

(** X6 -- zero is applied only when it is safe: [handleScaleToZero] returns
    [(0, true)] only with scale to zero enabled and either an Activating PA
    whose activation has timed out, or an Inactive PA for which the
    synchronous probe found the activator and the grace period has passed
    (by the PA's own inactivity, or by the time the SKS has been proxying).
    In particular never for an Active PA. *)
Theorem zero_only_when_safe
    (probe : PodAutoscaler -> RoundTripper -> Prog (bool * option error))
    (desiredScale : int32) :
  let ks := scalerWith psf probe in
  result o n (handleScaleToZero ks ctx pa sks desiredScale) = (0, true) ->
  let now : Time := o n time_Now in
  let probing := run o (S n) (probe pa NewProberTransport) in
  let grace := ScaleToZeroGracePeriod (Autoscaler (FromContext ctx)) in
  let proxyFor : Duration.t :=
    o (S n + List.length (fst probing))%nat (ProxyFor (SKSStatus sks)) in
  desiredScale = 0 /\
  EnableScaleToZero (Autoscaler (FromContext ctx)) = true /\
  ((Status (Active (PAStatus pa)) = ConditionUnknown /\
    CanFailActivation (PAStatus pa) now
      (Duration.add (ProgressDeadline (Deployment (FromContext ctx)))
         activationTimeoutBuffer) = true) \/
   (Status (Active (PAStatus pa)) = ConditionFalse /\
    fst (snd probing) = true /\
    (CanScaleToZero (PAStatus pa) now grace = true \/
     Duration.sub grace proxyFor <= 0))).
Proof.
  intros ks. unfold result. subst ks.
  destruct (Z.eq_dec desiredScale 0) as [-> | Hd].
  2:{ rewrite hstz_nonzero by assumption. cbn [snd]. congruence. }
  destruct (EnableScaleToZero (Autoscaler (FromContext ctx))) eqn:He.
  2:{ rewrite hstz_disabled by assumption. cbn [snd]. discriminate. }
  destruct (Status (Active (PAStatus pa))) eqn:Hs.
  - rewrite hstz_active by assumption. cbv zeta.
    destruct (_ >=? _); [destruct (Mode (SKSSpec sks)) |]; cbn [snd];
      discriminate.
  - rewrite hstz_inactive by assumption. cbv zeta.
    destruct (fst (snd (run o (S n) (probe pa NewProberTransport)))) eqn:Hp;
      [| cbn [snd]; discriminate].
    destruct (CanScaleToZero _ _ _) eqn:Hc.
    + intros _. repeat split. right. repeat split. left. reflexivity.
    + destruct (_ <=? 0) eqn:Hto; cbn [snd]; [| discriminate].
      intros _. repeat split. right. repeat split. right.
      apply Z.leb_le, Hto.
  - rewrite hstz_activating by assumption. cbv zeta.
    destruct (CanFailActivation _ _ _) eqn:Hc; cbn [snd]; [| discriminate].
    intros _. repeat split. left. split; reflexivity.
Qed.

(** X7 -- a PA without a service name is never scaled to zero from the Inactive
    state by the scaler [newScaler] builds: its probe answers absent without
    a network request, so the decision is [(0, false)] and the asynchronous
    probe is offered, whatever the inactivity and proxying times. *)
Theorem no_service_name_never_zero :
  EnableScaleToZero (Autoscaler (FromContext ctx)) = true ->
  Status (Active (PAStatus pa)) = ConditionFalse ->
  ServiceName (PAStatus pa) = "" ->
  run o n (handleScaleToZero (newScaler psf EnqueueAfter) ctx pa sks 0) =
  ([time_Now;
    Offer (paToProbeTarget pa) pa probePeriod probeTimeout probeOptions],
   (0, false)).
Proof.
  intros He Hs Hname. rewrite newScaler_scalerWith.
  rewrite hstz_inactive by assumption. cbv zeta.
  unfold activatorProbe. rewrite Hname. reflexivity.
Qed.

(** X8 -- the calls of a decision by the scaler [newScaler] builds: none, or the
    clock read followed by at most one network probe of the PA's probe
    target, at most one [ProxyFor] of the SKS, and at most one of a
    re-enqueue of this PA and an offer of this PA for the same probe target
    and options, in this order. *)
Theorem decision_calls_shape (desiredScale : int32) :
  let tr :=
    calls o n
      (handleScaleToZero (newScaler psf EnqueueAfter) ctx pa sks
         desiredScale) in
  tr = [] \/
  exists p q e : list Call,
    tr = time_Now :: p ++ q ++ e /\
    (p = [] \/
     p = [prober_Do NewProberTransport (paToProbeTarget pa) probeOptions]) /\
    (q = [] \/ q = [ProxyFor (SKSStatus sks)]) /\
    (e = [] \/ (exists delay, e = [Enqueue pa delay]) \/
     e = [Offer (paToProbeTarget pa) pa probePeriod probeTimeout
            probeOptions]).
Proof.
  cbv zeta. unfold calls. rewrite newScaler_scalerWith.
  destruct (Z.eq_dec desiredScale 0) as [-> | Hd];
    [| rewrite hstz_nonzero by assumption; left; reflexivity].
  destruct (EnableScaleToZero (Autoscaler (FromContext ctx))) eqn:He;
    [| rewrite hstz_disabled by assumption; left; reflexivity].
  right.
  destruct (Status (Active (PAStatus pa))) eqn:Hs.
  - rewrite hstz_active by assumption. cbv zeta.
    destruct (_ >=? _); [destruct (Mode (SKSSpec sks)) |]; cbn [fst].
    + exists [], [], []. repeat split; auto.
    + exists [], [], [Enqueue pa (Duration.mul 3 Duration.Second)].
      repeat split; eauto.
    + eexists [], [], [Enqueue pa _]. repeat split; eauto.
  - rewrite hstz_inactive by assumption. cbv zeta.
    assert (Hprobe :
      fst (run o (S n) (activatorProbe pa NewProberTransport)) = [] \/
      fst (run o (S n) (activatorProbe pa NewProberTransport)) =
      [prober_Do NewProberTransport (paToProbeTarget pa) probeOptions]).
    { unfold activatorProbe. destruct (String.eqb _ _); [left | right];
        reflexivity. }
    set (p := fst (run o (S n) (activatorProbe pa NewProberTransport))) in *.
    destruct (fst (snd (run o (S n) (activatorProbe pa NewProberTransport)))).
    + destruct (CanScaleToZero _ _ _); [| destruct (_ <=? 0)]; cbn [fst].
      * exists p, [], []. rewrite !app_nil_r. repeat split; auto.
      * exists p, [ProxyFor (SKSStatus sks)], []. rewrite !app_nil_r.
        repeat split; auto.
      * eexists p, [ProxyFor (SKSStatus sks)], [Enqueue pa _].
        repeat split; eauto.
    + cbn [fst]. eexists p, [], [Offer _ _ _ _ _].
      repeat split; eauto.
  - rewrite hstz_activating by assumption. cbv zeta.
    destruct (CanFailActivation _ _ _); cbn [fst].
    + exists [], [], []. repeat split; auto.
    + eexists [], [], [Enqueue pa _]. repeat split; eauto.
Qed.

End DecisionMore.

Lemma activatorProbe_calls_cases {imports : Imports} (pa : PodAutoscaler)
    (transport : RoundTripper) (o : Oracle) (n : nat) :
  fst (run o n (activatorProbe pa transport)) = [] \/
  fst (run o n (activatorProbe pa transport)) =
  [prober_Do transport (paToProbeTarget pa) probeOptions].
Proof.
  unfold activatorProbe. destruct (String.eqb _ _); [left | right];
    reflexivity.
Qed.

Section Delays.

Context {imports : Imports}.
Variable psf : InformerFactory.
Variables (ctx : Context) (pa : PodAutoscaler) (sks : ServerlessService).
Variables (o : Oracle) (n : nat).

(** X9 -- every re-enqueue a decision of the scaler [newScaler] builds makes is
    for the PA it decides on and has a strictly positive delay, provided the
    progress deadline is not negative and neither the activation timeout nor
    the remainder of the stable window overflows a Duration. *)
Theorem enqueue_delays_positive (desiredScale : int32) :
  0 <= ProgressDeadline (Deployment (FromContext ctx)) ->
  Duration.in_range
    (ProgressDeadline (Deployment (FromContext ctx)) + 10000000000) ->
  Duration.in_range
    (StableWindow pa (Autoscaler (FromContext ctx))
     - ActiveFor (PAStatus pa) (o n time_Now)) ->
  forall (arg : PodAutoscaler) (delay : Duration.t),
    In (Enqueue arg delay)
      (calls o n
         (handleScaleToZero (newScaler psf EnqueueAfter) ctx pa sks
            desiredScale)) ->
    arg = pa /\ 0 < delay.
Proof.
  intros Hpd Hat Hsw arg delay. unfold calls. rewrite newScaler_scalerWith.
  destruct (Z.eq_dec desiredScale 0) as [-> | Hd];
    [| rewrite hstz_nonzero by assumption; intros []].
  destruct (EnableScaleToZero (Autoscaler (FromContext ctx))) eqn:He;
    [| rewrite hstz_disabled by assumption; intros []].
  destruct (Status (Active (PAStatus pa))) eqn:Hs.
  - rewrite hstz_active by assumption. cbv zeta.
    destruct (_ >=? _) eqn:Hge; [destruct (Mode (SKSSpec sks)) |];
      cbn [fst In]; intros H.
    + destruct H as [H | []]. discriminate H.
    + destruct H as [H | [H | []]]; [discriminate H |].
      injection H as <- <-. split; [reflexivity |].
      replace (Duration.mul 3 Duration.Second) with 3000000000
        by (symmetry; apply constants_ns). lia.
    + destruct H as [H | [H | []]]; [discriminate H |].
      injection H as <- <-. split; [reflexivity |].
      rewrite sub_exact by assumption.
      rewrite Z.geb_leb in Hge. apply Z.leb_gt in Hge. lia.
  - rewrite hstz_inactive by assumption. cbv zeta.
    assert (Hp : ~ In (Enqueue arg delay)
                   (fst (run o (S n) (activatorProbe pa NewProberTransport)))).
    { destruct (activatorProbe_calls_cases pa NewProberTransport o (S n))
        as [E | E]; rewrite E; cbn [In]; [tauto |].
      intros [H | []]. discriminate H. }
    destruct (fst (snd (run o (S n) (activatorProbe pa NewProberTransport)))).
    + destruct (CanScaleToZero _ _ _); [| destruct (_ <=? 0) eqn:Hto];
        cbn [fst In]; intros [H | H]; try discriminate H.
      * contradiction.
      * apply in_app_or in H. destruct H as [H | [H | []]];
          [contradiction | discriminate H].
      * apply in_app_or in H.
        destruct H as [H | [H | [H | []]]];
          [contradiction | discriminate H |].
        injection H as <- <-. split; [reflexivity |].
        apply Z.leb_gt in Hto. exact Hto.
    + cbn [fst In]. intros [H | H]; [discriminate H |].
      apply in_app_or in H. destruct H as [H | [H | []]];
        [contradiction | discriminate H].
  - rewrite hstz_activating by assumption. cbv zeta.
    destruct (CanFailActivation _ _ _); cbn [fst In]; intros H.
    + destruct H as [H | []]. discriminate H.
    + destruct H as [H | [H | []]]; [discriminate H |].
      injection H as <- <-. split; [reflexivity |].
      replace activationTimeoutBuffer with 10000000000
        by (symmetry; apply constants_ns).
      rewrite add_exact by assumption. lia.
Qed.

End Delays.

(** ** The apply step *)

Section Apply.

Context {imports : Imports}.
Variables (ks : scaler.t) (ctx : Context) (pa : PodAutoscaler).
Variables (sks : ServerlessService) (o : Oracle) (n : nat).

(** [applyScale] in terms of the helpers it chains. *)
Lemma applyScale_run (desiredScale : int32) (ps : PodScalable) (m : nat) :
  run o m (applyScale ks ctx pa desiredScale ps) =
  match ScaleResourceArguments (ScaleTargetRef (Spec pa)) with
  | inr err => ([], Some err)
  | inl (gvr, name) =>
    match CreatePatch ps
            {| PSName := PSName ps; Replicas := Some desiredScale |} with
    | inr err => ([], Some err)
    | inl patch =>
      match MarshalJSON patch with
      | inr err => ([], Some err)
      | inl data =>
        let req :=
          Patch (scaler.dynamicClient ks) gvr (Namespace pa) (PSName ps)
            data in
        ([req],
         match o m req with
         | Some err => Some (FailedToApplyScale desiredScale name err)
         | None => None
         end)
      end
    end
  end.
Proof.
  unfold applyScale.
  destruct (ScaleResourceArguments _) as [[gvr name] | err];
    [| reflexivity].
  destruct (CreatePatch _ _) as [patch | err]; [| reflexivity].
  destruct (MarshalJSON _) as [data | err]; [| reflexivity].
  cbn [call bind]. rewrite run_vis. unfold calls, result. cbv zeta.
  destruct (o m _); reflexivity.
Qed.

(** X10 -- [applyScale] makes at most one call, and it is the PATCH, through the
    scaler's dynamic client, of the scalable named [ps.Name] in the PA's
    namespace, carrying the marshalled patch from [ps] to [ps] with its
    replicas set to the desired scale; the resource comes from the PA's
    scale target reference. When resolving the reference, creating the
    patch or marshalling it fails, nothing is sent. *)
Theorem applyScale_sends_one_patch (desiredScale : int32) (ps : PodScalable) :
  let sent := calls o n (applyScale ks ctx pa desiredScale ps) in
  (List.length sent <= 1)%nat /\
  (forall c : Call, In c sent ->
     exists gvr name patch data,
       ScaleResourceArguments (ScaleTargetRef (Spec pa)) = inl (gvr, name) /\
       CreatePatch ps {| PSName := PSName ps; Replicas := Some desiredScale |}
       = inl patch /\
       MarshalJSON patch = inl data /\
       c = Patch (scaler.dynamicClient ks) gvr (Namespace pa) (PSName ps)
             data).
Proof.
  cbv zeta. unfold calls. rewrite applyScale_run.
  destruct (ScaleResourceArguments _) as [[gvr name] | err] eqn:Ha;
    [| split; [cbn; lia | intros c []]].
  destruct (CreatePatch _ _) as [patch | err] eqn:Hc;
    [| split; [cbn; lia | intros c []]].
  destruct (MarshalJSON _) as [data | err] eqn:Hm;
    [| split; [cbn; lia | intros c []]].
  cbn [fst]. split; [cbn; lia |].
  intros c [<- | []]. exists gvr, name, patch, data. auto.
Qed.


End Apply.

(** ** More on the top-level scale *)

Section ScaleMore.

Context {imports : Imports}.
Variable psf : InformerFactory.
Variables (ctx : Context) (pa : PodAutoscaler) (sks : ServerlessService).
Variables (o : Oracle) (n : nat).

(** X12 -- with well-formed bounds ([0 <= min], and [min <= max] unless [max] is
    0), a scale that [scale] decides to apply lies within the bounds: the
    floor of 1 kept while scale to zero is disabled or the PA cools down
    never exceeds [max], and a negative desired scale of an Activating PA
    is raised to [min]. *)
Theorem scale_applies_within_bounds
    (probe : PodAutoscaler -> RoundTripper -> Prog (bool * option error))
    (desiredScale : int32) :
  0 <= fst (ScaleBounds pa) ->
  (snd (ScaleBounds pa) <> 0 -> fst (ScaleBounds pa) <= snd (ScaleBounds pa)) ->
  (desiredScale <? 0) && negb (IsActivating (PAStatus pa)) = false ->
  let clamped :=
    applyBounds (fst (ScaleBounds pa)) (snd (ScaleBounds pa)) desiredScale in
  let decision :=
    run o n (handleScaleToZero (scalerWith psf probe) ctx pa sks clamped) in
  snd (snd decision) = true ->
  fst (ScaleBounds pa) <= fst (snd decision) /\
  (snd (ScaleBounds pa) <> 0 -> fst (snd decision) <= snd (ScaleBounds pa)).
Proof.
  intros Hmin Hb Hearly clamped decision.
  assert (Hc : fst (ScaleBounds pa) <= clamped /\
               (snd (ScaleBounds pa) <> 0 -> clamped <= snd (ScaleBounds pa))).
  { subst clamped.
    destruct (applyBounds_cases (fst (ScaleBounds pa))
                (snd (ScaleBounds pa)) desiredScale)
      as [[H1 E] | [[H1 [H2 [H3 E]]] | [H1 [H2 E]]]]; rewrite E; lia. }
  subst decision. destruct (Z.eq_dec clamped 0) as [E0 | Hne].
  - rewrite E0 in *.
    destruct (EnableScaleToZero (Autoscaler (FromContext ctx))) eqn:He;
      [| rewrite hstz_disabled by assumption; cbn [fst snd]; lia].
    destruct (Status (Active (PAStatus pa))) eqn:Hs.
    + rewrite hstz_active by assumption. cbv zeta.
      destruct (_ >=? _); [destruct (Mode (SKSSpec sks)) |];
        cbn [fst snd]; intros; try discriminate; lia.
    + rewrite hstz_inactive by assumption. cbv zeta.
      destruct (fst (snd (run o (S n) (probe pa NewProberTransport))));
        [destruct (CanScaleToZero _ _ _); [| destruct (_ <=? 0)] |];
        cbn [fst snd]; intros; try discriminate; lia.
    + rewrite hstz_activating by assumption. cbv zeta.
      destruct (CanFailActivation _ _ _); cbn [fst snd];
        intros; try discriminate; lia.
  - rewrite hstz_nonzero by assumption. cbn [fst snd]. intros _. exact Hc.
Qed.

(** X13 -- with scale to zero disabled, [scale] never returns 0, whatever the
    scaler, the PA and the desired scale, and its only calls are the lookup
    of the scale target and the PATCH: no clock read, no probe, no
    re-enqueue. *)
Theorem scale_with_scale_to_zero_disabled (ks : scaler.t)
    (desiredScale : int32) :
  EnableScaleToZero (Autoscaler (FromContext ctx)) = false ->
  let outcome := run o n (scale ks ctx pa sks desiredScale) in
  fst (snd outcome) <> 0 /\
  (forall c : Call, In c (fst outcome) ->
     c = GetScaleResource (Namespace pa) (ScaleTargetRef (Spec pa))
           (scaler.psInformerFactory ks) \/
     is_Patch c = true).
Proof.
  intros He outcome. subst outcome. rewrite scale_run.
  destruct ((desiredScale <? 0) && negb (IsActivating (PAStatus pa)))
    eqn:Hearly.
  { cbn [fst snd]. split; [| intros c []].
    apply andb_prop in Hearly. destruct Hearly as [Hlt _].
    apply Z.ltb_lt in Hlt. lia. }
  cbv zeta.
  set (clamped := applyBounds _ _ desiredScale).
  assert (Hdec : run o n (handleScaleToZero ks ctx pa sks clamped)
                 = ([], (if clamped =? 0 then 1 else clamped, true))).
  { destruct (Z.eqb_spec clamped 0) as [-> | Hne].
    - apply hstz_disabled, He.
    - apply hstz_nonzero, Hne. }
  rewrite Hdec. cbn [fst snd negb app].
  assert (Hnz : (if clamped =? 0 then 1 else clamped) <> 0).
  { destruct (Z.eqb_spec clamped 0); lia. }
  destruct (o _ _) as [ps | err].
  - destruct (_ =? currentScale ps); cbn [fst snd].
    + split; [exact Hnz |]. intros c [<- | []]. left. reflexivity.
    + split; [exact Hnz |]. intros c [<- | Hin]; [left; reflexivity |].
      right. rewrite applyScale_run in Hin.
      destruct (ScaleResourceArguments _) as [[gvr name] | e];
        [| destruct Hin].
      destruct (CreatePatch _ _) as [patch | e]; [| destruct Hin].
      destruct (MarshalJSON _) as [data | e]; [| destruct Hin].
      destruct Hin as [<- | []]. reflexivity.
  - cbn [fst snd]. split; [exact Hnz |].
    intros c [<- | []]. left. reflexivity.
Qed.

(** X14 -- what [scale] does after the decision, for any scaler: nothing when it
    returned early or the decision is not to apply; otherwise one lookup of
    the PA's scale target in the scaler's informer factory, followed by at
    most one PATCH, of the scalable that was looked up. *)
Theorem scale_calls_after_decision (ks : scaler.t) (desiredScale : int32) :
  let early := (desiredScale <? 0) && negb (IsActivating (PAStatus pa)) in
  let clamped :=
    applyBounds (fst (ScaleBounds pa)) (snd (ScaleBounds pa)) desiredScale in
  let decision := run o n (handleScaleToZero ks ctx pa sks clamped) in
  let get :=
    GetScaleResource (Namespace pa) (ScaleTargetRef (Spec pa))
      (scaler.psInformerFactory ks) in
  exists tail : list Call,
    fst (run o n (scale ks ctx pa sks desiredScale))
    = (if early then [] else fst decision) ++ tail /\
    (tail <> [] <-> early = false /\ snd (snd decision) = true) /\
    (tail = [] \/ tail = [get] \/
     exists gvr data ps,
       o (n + List.length (fst decision))%nat get = inl ps /\
       tail = [get; Patch (scaler.dynamicClient ks) gvr (Namespace pa)
                      (PSName ps) data]).
Proof.
  cbv zeta. rewrite scale_run.
  destruct ((desiredScale <? 0) && negb (IsActivating (PAStatus pa))).
  { exists []. cbn [fst]. split; [reflexivity |]. split; [| auto].
    split; [congruence | intros [H _]; discriminate H]. }
  cbv zeta.
  destruct (run o n (handleScaleToZero ks ctx pa sks _))
    as [tr [decided [|]]]; cbn [fst snd negb].
  2:{ exists []. rewrite app_nil_r. split; [reflexivity |]. split; [| auto].
      split; [congruence | intros [_ H]; discriminate H]. }
  destruct (o (n + List.length tr)%nat _) as [ps | err] eqn:Hget.
  - destruct (decided =? currentScale ps); cbn [fst].
    + eexists. split; [reflexivity |]. split; [| auto].
      split; [auto | discriminate].
    + rewrite applyScale_run.
      destruct (ScaleResourceArguments _) as [[gvr name] | e];
        [destruct (CreatePatch _ _) as [patch | e];
         [destruct (MarshalJSON _) as [data | e] |] |];
        cbn [fst]; (eexists; split; [reflexivity |]);
        (split; [split; [auto | discriminate] |]); auto.
      right. right. exists gvr, data, ps. split; reflexivity.
  - cbn [fst]. eexists. split; [reflexivity |]. split; [| auto].
    split; [auto | discriminate].
Qed.

(** X15 -- [scale] returns an error only after deciding to apply: it is the
    failure of the lookup, wrapped, in which case nothing follows the lookup,
    or the error of [applyScale] for a scalable whose current scale differs
    from the decided one. In both cases the decided scale is still returned. *)
Theorem scale_error_cases (ks : scaler.t) (desiredScale : int32)
    (e : error) :
  let early := (desiredScale <? 0) && negb (IsActivating (PAStatus pa)) in
  let clamped :=
    applyBounds (fst (ScaleBounds pa)) (snd (ScaleBounds pa)) desiredScale in
  let decision := run o n (handleScaleToZero ks ctx pa sks clamped) in
  let m := (n + List.length (fst decision))%nat in
  let get :=
    GetScaleResource (Namespace pa) (ScaleTargetRef (Spec pa))
      (scaler.psInformerFactory ks) in
  let outcome := run o n (scale ks ctx pa sks desiredScale) in
  snd (snd outcome) = Some e ->
  early = false /\ snd (snd decision) = true /\
  fst (snd outcome) = fst (snd decision) /\
  ((exists err, o m get = inr err /\ e = FailedToGetScaleTarget err /\
                fst outcome = fst decision ++ [get]) \/
   (exists ps, o m get = inl ps /\ fst (snd decision) <> currentScale ps /\
               result o (S m)
                 (applyScale ks ctx pa (fst (snd decision)) ps) = Some e)).
Proof.
  cbv zeta. rewrite scale_run.
  destruct ((desiredScale <? 0) && negb (IsActivating (PAStatus pa)));
    [cbn [fst snd]; discriminate |].
  cbv zeta.
  destruct (run o n (handleScaleToZero ks ctx pa sks _))
    as [tr [decided [|]]]; cbn [fst snd negb];
    [| discriminate].
  destruct (o (n + List.length tr)%nat _) as [ps | err] eqn:Hget.
  - destruct (Z.eqb_spec decided (currentScale ps)) as [Heq | Hne];
      cbn [fst snd]; [discriminate |].
    intros H. repeat split. right. exists ps. repeat split; assumption.
  - cbn [fst snd]. intros H. injection H as <-. repeat split.
    left. exists err. repeat split.
Qed.

End ScaleMore.

(** ** Clamping and scaling compose *)

(** X16 -- with well-formed bounds, [scale] depends on the desired scale only
    through its clamp: unless it returns early, scaling to a desired scale
    and scaling to its clamped value make the same calls and return the same
    result, for any scaler. *)
Theorem scale_of_clamped_scale {imports : Imports} (ks : scaler.t)
    (ctx : Context) (pa : PodAutoscaler) (sks : ServerlessService)
    (o : Oracle) (n : nat) (desiredScale : int32) :
  0 <= fst (ScaleBounds pa) ->
  (snd (ScaleBounds pa) <> 0 -> fst (ScaleBounds pa) <= snd (ScaleBounds pa)) ->
  (desiredScale <? 0) && negb (IsActivating (PAStatus pa)) = false ->
  run o n (scale ks ctx pa sks desiredScale) =
  run o n
    (scale ks ctx pa sks
       (applyBounds (fst (ScaleBounds pa)) (snd (ScaleBounds pa))
          desiredScale)).
Proof.
  intros Hmin Hb Hearly.
  set (min := fst (ScaleBounds pa)) in *.
  set (max := snd (ScaleBounds pa)) in *.
  assert (Hc : min <= applyBounds min max desiredScale /\
               (max <> 0 -> applyBounds min max desiredScale <= max)).
  { destruct (applyBounds_cases min max desiredScale)
      as [[H1 E] | [[H1 [H2 [H3 E]]] | [H1 [H2 E]]]]; rewrite E; lia. }
  assert (Hidem : applyBounds min max (applyBounds min max desiredScale)
                  = applyBounds min max desiredScale).
  { destruct (applyBounds_cases min max (applyBounds min max desiredScale))
      as [[H1 E] | [[H1 [H2 [H3 E]]] | [H1 [H2 E]]]]; [lia | lia | exact E]. }
  assert (Hearly' : (applyBounds min max desiredScale <? 0)
                    && negb (IsActivating (PAStatus pa)) = false).
  { assert (H : (applyBounds min max desiredScale <? 0) = false)
      by (apply Z.ltb_ge; lia).
    rewrite H. reflexivity. }
  rewrite !scale_run. fold min max. rewrite Hearly, Hearly', Hidem.
  reflexivity.
Qed.

(** ** The further properties at concrete inputs *)

Section MoreWitnesses.

#[local] Existing Instance specImports.

Lemma probe_only_when_inactive_witness :
  let pa := scenarioPA ConditionTrue 0 "svc" 0 10 in
  let o := scenarioOracle (seconds 10) (true, None) 0 (Some 3) in
  run o 0
    (handleScaleToZero (scalerWith (informerFactory 0) activatorProbe)
       (scenarioCtx true) pa scenarioServe 0)
  = run o 0
      (handleScaleToZero (scalerWith (informerFactory 0) injectedProbe)
         (scenarioCtx true) pa scenarioServe 0).
Proof.
  intros pa o.
  apply (probe_only_when_inactive (informerFactory 0) (scenarioCtx true) pa
           scenarioServe o 0 activatorProbe injectedProbe 0).
  right. right. discriminate.
Defined.

Lemma zero_only_when_safe_witness :
  let pa := scenarioPA ConditionUnknown 0 "svc" 0 10 in
  let o := scenarioOracle (seconds 620) (false, None) 0 (Some 3) in
  Status (Active (PAStatus pa)) = ConditionUnknown /\
  CanFailActivation (PAStatus pa) (o 0%nat time_Now)
    (Duration.add (seconds 600) activationTimeoutBuffer) = true.
Proof.
  intros pa o.
  destruct (zero_only_when_safe (informerFactory 0) (scenarioCtx true) pa
              scenarioServe o 0 activatorProbe 0)
    as [_ [_ [H | [H _]]]].
  - reflexivity.
  - exact H.
  - discriminate H.
Defined.

Lemma no_service_name_never_zero_witness :
  let pa := scenarioPA ConditionFalse 0 "" 0 10 in
  let o := scenarioOracle (seconds 1000) (true, None) (seconds 900) None in
  run o 0
    (handleScaleToZero scenarioScaler (scenarioCtx true) pa scenarioProxy 0)
  = ([time_Now;
      Offer "http://.ns:80/healthz" pa 1000000000 45000000000 probeOptions],
     (0, false)).
Proof.
  intros pa o.
  exact (no_service_name_never_zero (informerFactory 0) (scenarioCtx true)
           pa scenarioProxy o 0 eq_refl eq_refl eq_refl).
Defined.

Lemma enqueue_delays_positive_witness :
  let pa := scenarioPA ConditionTrue 0 "svc" 0 10 in
  pa = pa /\ 0 < 50000000000.
Proof.
  intros pa.
  apply (enqueue_delays_positive (informerFactory 0) (scenarioCtx true) pa
           scenarioServe
           (scenarioOracle (seconds 10) (true, None) 0 (Some 3)) 0 0).
  - vm_compute. discriminate.
  - vm_compute. split; discriminate.
  - vm_compute. split; discriminate.
  - vm_compute. right. left. reflexivity.
Defined.

Lemma scale_applies_within_bounds_witness :
  let pa := scenarioPA ConditionTrue 0 "svc" 1 10 in
  let o := scenarioOracle (seconds 10) (true, None) 0 (Some 3) in
  1 <= fst (snd (run o 0
                   (handleScaleToZero
                      (scalerWith (informerFactory 0) activatorProbe)
                      (scenarioCtx true) pa scenarioServe
                      (applyBounds 1 10 25)))).
Proof.
  intros pa o.
  destruct (scale_applies_within_bounds (informerFactory 0)
              (scenarioCtx true) pa scenarioServe o 0 activatorProbe 25)
    as [H _].
  - simpl. lia.
  - simpl. lia.
  - reflexivity.
  - reflexivity.
  - exact H.
Defined.

Lemma scale_with_scale_to_zero_disabled_witness :
  let pa := scenarioPA ConditionFalse 0 "svc" 0 10 in
  let o := scenarioOracle (seconds 10) (true, None) 0 (Some 3) in
  fst (snd (run o 0
              (scale scenarioScaler (scenarioCtx false) pa scenarioServe 0)))
  <> 0.
Proof.
  intros pa o.
  destruct (scale_with_scale_to_zero_disabled (scenarioCtx false) pa
              scenarioServe o 0 scenarioScaler 0)
    as [H _].
  - reflexivity.
  - exact H.
Defined.

Lemma scale_error_cases_witness :
  let pa := scenarioPA ConditionTrue 0 "svc" 1 10 in
  let o := lookupFailsOracle (seconds 10) (true, None) 0 in
  fst (snd (run o 0
              (scale scenarioScaler (scenarioCtx true) pa scenarioServe 5)))
  = 5.
Proof.
  intros pa o.
  destruct (scale_error_cases (scenarioCtx true) pa scenarioServe o 0
              scenarioScaler 5
              (FailedToGetScaleTarget (ExternalError "not found")))
    as [_ [_ [H _]]].
  - reflexivity.
  - exact H.
Defined.

Lemma scale_of_clamped_scale_witness :
  let pa := scenarioPA ConditionTrue 0 "svc" 1 10 in
  let o := scenarioOracle (seconds 10) (true, None) 0 (Some 3) in
  run o 0 (scale scenarioScaler (scenarioCtx true) pa scenarioServe 25)
  = run o 0 (scale scenarioScaler (scenarioCtx true) pa scenarioServe 10).
Proof.
  intros pa o.
  assert (Hmin : 0 <= fst (ScaleBounds pa)) by (simpl; lia).
  assert (Hb : snd (ScaleBounds pa) <> 0 ->
               fst (ScaleBounds pa) <= snd (ScaleBounds pa))
    by (simpl; lia).
  exact (scale_of_clamped_scale scenarioScaler (scenarioCtx true) pa
           scenarioServe o 0 25 Hmin Hb eq_refl).
Defined.

End MoreWitnesses.
